(** * The mirror chatbot of [src/app.py]

    A shallow embedding of the Streamlit script: the mirror transform
    ([mirror_response]), the session log ([write_log]), the speaker
    ([Speaker]), the model client ([ask_gemini]) and the two handlers the
    script runs on every pass (user submission and the monologue cycle),
    followed by the properties the specification states about them.

    Python values are modelled as the script has them: a [str] is a sequence
    of Unicode code points, a [dict] is a finite map, the script's effects
    (session state, provider calls, file writes, speech) are threaded through
    a state-and-exception monad. *)

From Stdlib Require Import PrimFloat.
From stdpp Require Import base gmap list strings.

Local Open Scope N_scope.

(** ** Python strings *)

(** A Python [str]: its code points, in order. *)
Abbreviation str := (list N).

(** Source literals are written as UTF-8 text and decoded to code points. *)
Fixpoint bytes_of (s : string) : list N :=
  match s with
  | EmptyString => []
  | String a s' => Ascii.N_of_ascii a :: bytes_of s'
  end.

Fixpoint utf8_decode (bs : list N) : str :=
  match bs with
  | [] => []
  | b0 :: r0 =>
    if b0 <? 128 then b0 :: utf8_decode r0
    else
      match r0 with
      | [] => [b0]
      | b1 :: r1 =>
        if b0 <? 224 then ((b0 - 192) * 64 + (b1 - 128)) :: utf8_decode r1
        else
          match r1 with
          | [] => [b0; b1]
          | b2 :: r2 =>
            if b0 <? 240
            then ((b0 - 224) * 4096 + (b1 - 128) * 64 + (b2 - 128))
                   :: utf8_decode r2
            else
              match r2 with
              | [] => [b0; b1; b2]
              | b3 :: r3 =>
                ((b0 - 240) * 262144 + (b1 - 128) * 4096
                 + (b2 - 128) * 64 + (b3 - 128)) :: utf8_decode r3
              end
          end
      end
  end.

Definition lit (s : string) : str := utf8_decode (bytes_of s).

(** The line feed, written [\n] in the source. *)
Definition LF : str := [10].

(** [str.isspace] on one code point: the characters CPython's
    [_PyUnicode_IsWhitespace] accepts. *)
Definition isspace (c : N) : bool :=
  ((9 <=? c) && (c <=? 13)) || ((28 <=? c) && (c <=? 32))
  || (c =? 133) || (c =? 160) || (c =? 5760)
  || ((8192 <=? c) && (c <=? 8202))
  || (c =? 8232) || (c =? 8233) || (c =? 8239) || (c =? 8287)
  || (c =? 12288).

(** [s.lstrip()] *)
Fixpoint lstrip (s : str) : str :=
  match s with
  | [] => []
  | c :: s' => if isspace c then lstrip s' else s
  end.

(** [s.rstrip()] *)
Fixpoint rstrip (s : str) : str :=
  match s with
  | [] => []
  | c :: s' =>
    match rstrip s' with
    | [] => if isspace c then [] else [c]
    | r => c :: r
    end
  end.

(** [s.strip()] *)
Definition strip (s : str) : str := rstrip (lstrip s).

(** [s.split()] with no separator: maximal runs of non-whitespace.  [cur] is
    the token being scanned. *)
Fixpoint split_from (cur s : str) : list str :=
  match s with
  | [] => match cur with [] => [] | _ => [cur] end
  | c :: s' =>
    if isspace c
    then match cur with
         | [] => split_from [] s'
         | _ => cur :: split_from [] s'
         end
    else split_from (cur ++ [c]) s'
  end.

Definition split (s : str) : list str := split_from [] s.

(** [s.startswith(p)] *)
Fixpoint startswith (s p : str) {struct p} : bool :=
  match p, s with
  | [], _ => true
  | _ :: _, [] => false
  | a :: p', b :: s' => (a =? b) && startswith s' p'
  end.

(** [sub in s] *)
Fixpoint str_in (sub s : str) : bool :=
  startswith s sub ||
  match s with
  | [] => false
  | _ :: s' => str_in sub s'
  end.

(** [sub] occurs in [s] as a contiguous run of characters. *)
Definition contains (s sub : str) : Prop :=
  exists pre post, s = pre ++ sub ++ post.

(** Truthiness of a [str]: [bool(s)]. *)
Definition truthy (s : str) : bool :=
  match s with [] => false | _ => true end.

(** ** The mirror transform (section 6 of the script) *)

Definition mirror_hierarchy : gmap str (gmap str str) :=
  list_to_map
    [ (lit "물", {[ lit "결론" := lit "평화와 생명의 문" ]});
      (lit "불", {[ lit "결론" := lit "빛과 평화의 안내자" ]});
      (lit "바람", {[ lit "결론" := lit "자유와 흐름의 숨결" ]});
      (lit "흙", {[ lit "결론" := lit "품음과 뿌리의 안식" ]});
      (lit "혼잣말", {[ lit "결론" := lit "내면을 비추는 거울 같은 속삭임" ]}) ].

Definition mirror_response (subject original : str) : str :=
  let node : gmap str str := default ∅ (mirror_hierarchy !! subject) in
  if decide (node = ∅) then
    lit "거울상: (주제 '" ++ subject ++ lit "' 정의 없음)" ++ LF ++ LF ++ original
  else
    lit "거울상 (" ++ subject ++ lit "):" ++ LF
    ++ lit "- 원문: " ++ strip original ++ LF
    ++ lit "- 대조: " ++ subject
    ++ lit "은/는 스스로 주장하지 않지만 모든 것을 담아낸다." ++ LF
    ++ lit "- 종합: " ++ default [] (node !! lit "결론").

(** The sentence of line 127 with [subject] interpolated, and the table's
    conclusion for a subject, as the properties below name them. *)
Definition contrastive (subject : str) : str :=
  subject ++ lit "은/는 스스로 주장하지 않지만 모든 것을 담아낸다.".

Definition conclusion (subject : str) : option str :=
  match mirror_hierarchy !! subject with
  | Some node => node !! lit "결론"
  | None => None
  end.

(** The fallback text of line 123. *)
Definition fallback_form (subject original : str) : str :=
  lit "거울상: (주제 '" ++ subject ++ lit "' 정의 없음)" ++ LF ++ LF ++ original.

(** ** The world the script runs in *)

(** The session's log file: what reached the file and what [write] left in
    the stream's buffer. *)
Record file := { on_disk : str; pending : str }.

(** [st.session_state] once its three keys are set. *)
Record session_state := {
  logger : file;
  messages : list (str * str);
  monologue_running : bool
}.

(** [st.session_state] as a pass finds it: any of the keys may be missing. *)
Record raw_session := {
  raw_logger : option file;
  raw_messages : option (list (str * str));
  raw_monologue_running : option bool
}.

Definition new_session : raw_session :=
  {| raw_logger := None; raw_messages := None;
     raw_monologue_running := None |}.

(** Lines 66-68 and 83-87: the keys that are missing get their initial
    value; [opened] is the stream [open(log_path(), "a")] returns. *)
Definition init_session (opened : file) (r : raw_session) : session_state :=
  {| logger := default opened (raw_logger r);
     messages := default [] (raw_messages r);
     monologue_running := default false (raw_monologue_running r) |}.

(** A value of a [GenerationConfig] field. *)
Inductive value :=
| VInt (z : Z)
| VFloat (f : float).

(** What [generate_content] transmits. *)
Record request := {
  model_name : str;
  prompt : str;
  generation_config : gmap string value
}.

(** What the hosted API does with a request: it answers with a text, or the
    call (or reading [response.text]) raises. *)
Inductive reply :=
| Text (t : str)
| Failure.

(** How one [write_log] call fares: both calls succeed, [write] raises, or
    [write] succeeds and [flush] raises. *)
Inductive io_outcome :=
| IoOk
| WriteRaises
| FlushRaises.

(** The speech engine handle [pyttsx3.init()] returns. *)
Inductive engine := Engine.

(** The widgets' values on one pass of the script (section 5 and line 150). *)
Record ui := {
  max_tokens : Z;
  temperature : float;
  top_k : Z;
  top_p : float;
  repeat_penalty : float;
  tts_enabled : bool;
  mirror_mode : bool;
  start_clicked : bool;
  stop_clicked : bool;
  user_input : str
}.

(** Everything outside the script that one pass depends on: the widgets,
    the provider's answer to the n-th request of the session, the fate of
    the n-th log write, and whether the speech engine starts. *)
Record environment := {
  widgets : ui;
  provider : nat -> request -> reply;
  disk : nat -> io_outcome;
  tts_engine : option engine
}.

(** The state a pass changes: the session state, the requests sent so far,
    the number of log writes attempted, and the playbacks scheduled. *)
Record world := {
  session : session_state;
  sent : list request;
  log_calls : nat;
  spoken : list str
}.

Inductive exn :=
| ApiError
| IndexError
| OSError.

Inductive outcome (A : Type) :=
| Returns (a : A)
| Raises (e : exn).
Arguments Returns {A} a.
Arguments Raises {A} e.

(** ** The monad of the script: state that survives an exception *)

Definition M (A : Type) : Type := environment -> world -> outcome A * world.

Definition ret {A} (a : A) : M A := fun _ w => (Returns a, w).

Definition bind {A B} (m : M A) (k : A -> M B) : M B :=
  fun env w =>
    match m env w with
    | (Returns a, w') => k a env w'
    | (Raises e, w') => (Raises e, w')
    end.

Definition raise {A} (e : exn) : M A := fun _ w => (Raises e, w).

(** [try: m except Exception: h] *)
Definition try_except {A} (m : M A) (h : M A) : M A :=
  fun env w =>
    match m env w with
    | (Returns a, w') => (Returns a, w')
    | (Raises _, w') => h env w'
    end.

Definition widget {A} (f : ui -> A) : M A :=
  fun env w => (Returns (f (widgets env)), w).

Declare Scope script_scope.
Delimit Scope script_scope with script.
Notation "x <- m ;; k" := (bind m (fun x => k))
  (at level 100, m at next level, right associativity) : script_scope.
Notation "m ;; k" := (bind m (fun _ => k))
  (at level 100, right associativity) : script_scope.
Local Open Scope script_scope.

Definition set_session (s : session_state) (w : world) : world :=
  {| session := s; sent := sent w; log_calls := log_calls w;
     spoken := spoken w |}.

Definition set_logger (f : file) (s : session_state) : session_state :=
  {| logger := f; messages := messages s;
     monologue_running := monologue_running s |}.

Definition set_messages (l : list (str * str)) (s : session_state)
  : session_state :=
  {| logger := logger s; messages := l;
     monologue_running := monologue_running s |}.

Definition set_monologue_running (b : bool) (s : session_state)
  : session_state :=
  {| logger := logger s; messages := messages s; monologue_running := b |}.

(** ** The speaker (section 2) *)

Record Speaker := { speaker_engine : option engine; ok : bool }.

(** [Speaker.__init__]: [started] is what the [try] block yields, the
    configured engine, or nothing when one of its three calls raised. *)
Definition Speaker_init (started : option engine) : Speaker :=
  match started with
  | Some e => {| speaker_engine := Some e; ok := true |}
  | None => {| speaker_engine := None; ok := false |}
  end.

(** [threading.Thread(target=run, daemon=True).start()]: the playback of
    [text] is handed to a thread of its own. *)
Definition start_thread (text : str) : M unit :=
  fun _ w =>
    (Returns tt,
     {| session := session w; sent := sent w; log_calls := log_calls w;
        spoken := spoken w ++ [text] |}).

Definition speak (self : Speaker) (text : str) : M unit :=
  if ok self && truthy (strip text) then start_thread text else ret tt.

Definition the_speaker : M Speaker :=
  fun env w => (Returns (Speaker_init (tts_engine env)), w).

(** ** The session log (section 3) *)

(** The number of this [write_log] call; the environment decides its fate. *)
Definition next_log_call : M nat :=
  fun _ w =>
    (Returns (log_calls w),
     {| session := session w; sent := sent w; log_calls := S (log_calls w);
        spoken := spoken w |}).

(** [st.session_state["logger"].write(text)] *)
Definition file_write (call : nat) (text : str) : M unit :=
  fun env w =>
    match disk env call with
    | WriteRaises => (Raises OSError, w)
    | _ =>
      let f := logger (session w) in
      (Returns tt,
       set_session
         (set_logger {| on_disk := on_disk f; pending := pending f ++ text |}
                     (session w)) w)
    end.

(** [st.session_state["logger"].flush()] *)
Definition file_flush (call : nat) : M unit :=
  fun env w =>
    match disk env call with
    | FlushRaises => (Raises OSError, w)
    | _ =>
      let f := logger (session w) in
      (Returns tt,
       set_session
         (set_logger {| on_disk := on_disk f ++ pending f; pending := [] |}
                     (session w)) w)
    end.

Definition write_log (text : str) : M unit :=
  call <- next_log_call ;;
  try_except
    (file_write call (text ++ LF) ;; file_flush call)
    (ret tt).

(** ** The model client (section 7) *)

Definition MODEL_NAME : str := lit "models/gemini-2.5-pro".

(** [genai.types.GenerationConfig(...)]: the keyword arguments given. *)
Definition GenerationConfig
    (max_output_tokens : Z) (temperature top_p : float) : gmap string value :=
  <["max_output_tokens" := VInt max_output_tokens]>
    (<["temperature" := VFloat temperature]>
       (<["top_p" := VFloat top_p]> ∅)).

(** [model.generate_content(...)] followed by [response.text]: the request
    goes out, and the provider's reply comes back or the call raises. *)
Definition generate_content (r : request) : M str :=
  fun env w =>
    let w' := {| session := session w; sent := sent w ++ [r];
                 log_calls := log_calls w; spoken := spoken w |} in
    match provider env (length (sent w)) r with
    | Text t => (Returns t, w')
    | Failure => (Raises ApiError, w')
    end.

Definition ask_gemini (text : str) : M str :=
  tokens <- widget max_tokens ;;
  temp <- widget temperature ;;
  p <- widget top_p ;;
  response_text <-
    generate_content
      {| model_name := MODEL_NAME; prompt := text;
         generation_config := GenerationConfig tokens temp p |} ;;
  ret (strip response_text).

(** ** The script's sections 5, 8 and 9 *)

(** [l[0]] *)
Definition first_item (l : list str) : M str :=
  match l with
  | x :: _ => ret x
  | [] => raise IndexError
  end.

(** [st.session_state["messages"].append(m)] *)
Definition append_message (m : str * str) : M unit :=
  fun _ w =>
    (Returns tt,
     set_session (set_messages (messages (session w) ++ [m]) (session w)) w).

Definition set_running (b : bool) : M unit :=
  fun _ w => (Returns tt, set_session (set_monologue_running b (session w)) w).

Definition get_running : M bool :=
  fun _ w => (Returns (monologue_running (session w)), w).

(** Lines 104-107: the two buttons. *)
Definition buttons : M unit :=
  start <- widget start_clicked ;;
  (if start then set_running true else ret tt) ;;
  stop <- widget stop_clicked ;;
  (if stop then set_running false else ret tt).

(** Lines 152-163: the user's text. *)
Definition user_input_section (speaker : Speaker) : M unit :=
  text <- widget user_input ;;
  if truthy text then
    answer <- ask_gemini text ;;
    mirror <- widget mirror_mode ;;
    answer <-
      (if mirror then
         subject <- first_item (split (strip text)) ;;
         ret (mirror_response subject answer)
       else ret answer) ;;
    append_message (lit "user", text) ;;
    append_message (lit "assistant", answer) ;;
    write_log (lit "USER: " ++ text ++ LF ++ lit "ASSISTANT: " ++ answer) ;;
    tts <- widget tts_enabled ;;
    if tts then speak speaker answer else ret tt
  else ret tt.

Definition monologue_prompt : str :=
  lit "은은하고 조용한 혼잣말을 한국어로 1~3문장 해줘. '예수님의 평화와 양의 문' 상징을 가볍게 담아.".

(** Lines 168-180: one monologue cycle. *)
Definition monologue_section (speaker : Speaker) : M unit :=
  running <- get_running ;;
  if running then
    answer <- ask_gemini monologue_prompt ;;
    mirror <- widget mirror_mode ;;
    answer <-
      (if mirror then ret (mirror_response (lit "혼잣말") answer)
       else ret answer) ;;
    append_message (lit "assistant", answer) ;;
    write_log (lit "ASSISTANT(MONO): " ++ answer) ;;
    tts <- widget tts_enabled ;;
    if tts then speak speaker answer else ret tt
  else ret tt.

(** One pass of the script over an initialised session. *)
Definition script : M unit :=
  speaker <- the_speaker ;;
  buttons ;;
  user_input_section speaker ;;
  monologue_section speaker.

(** ** Vocabulary of the specification *)

(** The two states of the soliloquy machine, read off the session flag. *)
Inductive soliloquy := Idle | SoliloquyActive.

Definition soliloquy_state (s : session_state) : soliloquy :=
  if monologue_running s then SoliloquyActive else Idle.

Inductive button := Start | Stop.

Definition set_clicks (start stop : bool) (u : ui) : ui :=
  {| max_tokens := max_tokens u; temperature := temperature u;
     top_k := top_k u; top_p := top_p u; repeat_penalty := repeat_penalty u;
     tts_enabled := tts_enabled u; mirror_mode := mirror_mode u;
     start_clicked := start; stop_clicked := stop;
     user_input := user_input u |}.

(** The pass a click on [b] triggers: that button reads [True], the other
    one [False]. *)
Definition click (b : button) (env : environment) : environment :=
  {| widgets :=
       match b with
       | Start => set_clicks true false (widgets env)
       | Stop => set_clicks false true (widgets env)
       end;
     provider := provider env; disk := disk env;
     tts_engine := tts_engine env |}.

(** The session after a run of clicks, each with the environment of its
    own pass. *)
Fixpoint clicks (evs : list (button * environment)) (w : world) : world :=
  match evs with
  | [] => w
  | (b, env) :: evs' => clicks evs' (script (click b env) w).2
  end.

(** The same environment with another fate for the log writes. *)
Definition with_disk (d : nat -> io_outcome) (env : environment)
  : environment :=
  {| widgets := widgets env; provider := provider env; disk := d;
     tts_engine := tts_engine env |}.

(** The request [ask_gemini] builds for [text] out of the widgets, and the
    provider's reply to it when it is the next request of the session. *)
Definition request_of (u : ui) (text : str) : request :=
  {| model_name := MODEL_NAME; prompt := text;
     generation_config :=
       GenerationConfig (max_tokens u) (temperature u) (top_p u) |}.

Definition reply_to (env : environment) (w : world) (text : str) : reply :=
  provider env (length (sent w)) (request_of (widgets env) text).

(** The effects of the script's steps on the world, one by one. *)
Definition add_sent (r : request) (w : world) : world :=
  {| session := session w; sent := sent w ++ [r];
     log_calls := log_calls w; spoken := spoken w |}.

Definition add_message (m : str * str) (w : world) : world :=
  set_session (set_messages (messages (session w) ++ [m]) (session w)) w.

Definition written (o : io_outcome) (block : str) (f : file) : file :=
  match o with
  | IoOk => {| on_disk := on_disk f ++ pending f ++ block; pending := [] |}
  | WriteRaises => f
  | FlushRaises => {| on_disk := on_disk f; pending := pending f ++ block |}
  end.

Definition after_log (o : io_outcome) (block : str) (w : world) : world :=
  {| session := set_logger (written o block (logger (session w))) (session w);
     sent := sent w; log_calls := S (log_calls w); spoken := spoken w |}.

Definition after_speech (tts : bool) (speaker : Speaker) (answer : str)
    (w : world) : world :=
  if tts && ok speaker && truthy (strip answer)
  then {| session := session w; sent := sent w; log_calls := log_calls w;
          spoken := spoken w ++ [answer] |}
  else w.

Definition after_buttons (u : ui) (w : world) : world :=
  let w1 :=
    if start_clicked u
    then set_session (set_monologue_running true (session w)) w else w in
  if stop_clicked u
  then set_session (set_monologue_running false (session w1)) w1 else w1.

(** The text the user section displays for the provider's text [t]:
    nothing when the subject cannot be extracted. *)
Definition user_answer (u : ui) (t : str) : option str :=
  if mirror_mode u then
    match split (strip (user_input u)) with
    | subject :: _ => Some (mirror_response subject (strip t))
    | [] => None
    end
  else Some (strip t).

Definition monologue_answer (u : ui) (t : str) : str :=
  if mirror_mode u then mirror_response (lit "혼잣말") (strip t) else strip t.

(** The scenario of the specification's tests: the widgets at their
    defaults, a provider that always answers [t] (or always fails), a disk
    that always behaves as [o]. *)
Definition example_ui (text : str) (mirror tts : bool) : ui :=
  {| max_tokens := 5012; temperature := 0x1.ccccccccccccdp-1%float;
     top_k := 40; top_p := 0x1.ccccccccccccdp-1%float;
     repeat_penalty := 0x1.0cccccccccccdp+0%float;
     tts_enabled := tts; mirror_mode := mirror;
     start_clicked := false; stop_clicked := false; user_input := text |}.

Definition example_env (text : str) (mirror tts : bool) (r : reply)
    (o : io_outcome) : environment :=
  {| widgets := example_ui text mirror tts; provider := fun _ _ => r;
     disk := fun _ => o; tts_engine := Some Engine |}.

(** The world of a session's first pass. *)
Definition first_world (opened : file) : world :=
  {| session := init_session opened new_session; sent := [];
     log_calls := 0; spoken := [] |}.

(** ** The log file's name (section 3) *)

(** The fields of [datetime.now()] that [strftime] reads. *)
Record datetime := {
  year : N; month : N; day : N; hour : N; minute : N; second : N
}.

(** The fields as [datetime] keeps them; years below 1000 are left out,
    [%Y] does not pad them everywhere. *)
Definition valid_datetime (t : datetime) : Prop :=
  (1000 <= year t <= 9999) /\ (1 <= month t <= 12) /\ (1 <= day t <= 31) /\
  hour t <= 23 /\ minute t <= 59 /\ second t <= 59.

(** The last decimal digit of [n], as a character. *)
Definition digit (n : N) : N := 48 + n mod 10.

(** [%m], [%d], [%H], [%M], [%S]: two digits, zero-padded. *)
Definition two_digits (n : N) : str := [digit (n / 10); digit n].

(** [%Y] *)
Definition four_digits (n : N) : str :=
  [digit (n / 1000); digit (n / 100); digit (n / 10); digit n].

(** [now.strftime("%Y%m%d_%H%M%S")] *)
Definition strftime (t : datetime) : str :=
  four_digits (year t) ++ two_digits (month t) ++ two_digits (day t)
  ++ lit "_"
  ++ two_digits (hour t) ++ two_digits (minute t) ++ two_digits (second t).

(** [os.path.join(dir, name)] for a relative [name]; [sep] is the
    platform's separator. *)
Definition path_join (sep dir name : str) : str := dir ++ sep ++ name.

Definition log_path (sep : str) (now : datetime) : str :=
  path_join sep (lit "logs") (lit "session_" ++ strftime now ++ lit ".txt").

(** ** The conversation display (section 10) *)

Definition render_message (m : str * str) : str :=
  if decide (m.1 = lit "user")
  then lit "**👤 사용자:** " ++ m.2
  else lit "**🤖 어시스턴트:** " ++ m.2.

Definition render (ms : list (str * str)) : list str := map render_message ms.

(** A whole pass: the script, then the conversation as displayed. *)
Definition page : M (list str) :=
  script ;;
  (fun _ w => (Returns (render (messages (session w))), w)).

(** ** Runs of passes *)

(** The world after a run of passes, each with its own environment; a pass
    an exception ends leaves the world as it was at that point. *)
Fixpoint passes (envs : list environment) (w : world) : world :=
  match envs with
  | [] => w
  | env :: envs' => passes envs' (script env w).2
  end.

(** A history and the log text that tells the same story: a user turn is
    two messages and one block, a monologue turn one message and one
    record. *)
Inductive consistent : list (str * str) -> str -> Prop :=
| consistent_nil : consistent [] []
| consistent_turn ms log u a :
    consistent ms log ->
    consistent (ms ++ [(lit "user", u); (lit "assistant", a)])
               (log ++ (lit "USER: " ++ u ++ LF ++ lit "ASSISTANT: " ++ a) ++ LF)
| consistent_mono ms log a :
    consistent ms log ->
    consistent (ms ++ [(lit "assistant", a)])
               (log ++ (lit "ASSISTANT(MONO): " ++ a) ++ LF).

(** The later world holds all the earlier one held, in the same order:
    history, log on disk, requests, playbacks. *)
Definition grows (w w' : world) : Prop :=
  messages (session w) `prefix_of` messages (session w') /\
  on_disk (logger (session w)) `prefix_of` on_disk (logger (session w')) /\
  sent w `prefix_of` sent w' /\
  spoken w `prefix_of` spoken w'.

(** The log on disk tells the history, and nothing waits in the buffer. *)
Definition in_step (w : world) : Prop :=
  consistent (messages (session w)) (on_disk (logger (session w))) /\
  pending (logger (session w)) = [].

Definition reliable_disk (env : environment) : Prop :=
  forall n, disk env n = IoOk.

(** A message whose role is one of the two the script writes. *)
Definition known_role (m : str * str) : Prop :=
  m.1 = lit "user" \/ m.1 = lit "assistant".

(** A request as every call of [ask_gemini] shapes it. *)
Definition well_shaped (r : request) : Prop :=
  model_name r = MODEL_NAME /\
  dom (generation_config r)
  = ({[ "max_output_tokens"; "temperature"; "top_p" ]} : gset string).

(** A character that is no white space. *)
Definition nonspace (c : N) : Prop := isspace c = false.

(** Where a token ends: at the end of the text or before white space. *)
Definition token_end (post : str) : Prop :=
  match post with
  | [] => True
  | c :: _ => isspace c = true
  end.

(** * Properties *)

(** Texts stay as the source writes them while a proof simplifies. *)
Arguments lit : simpl never.
Arguments LF : simpl never.
Arguments strip : simpl never.
Arguments split : simpl never.
Arguments mirror_response : simpl never.

(** ** Strings *)

Lemma startswith_spec (p s : str) :
  startswith s p = true <-> exists post, s = p ++ post.
Proof.
  revert s. induction p as [|a p IH]; intros s; simpl.
  - split; [intros _; by exists s | intros _; reflexivity].
  - destruct s as [|b s].
    + split; [done | intros [post H]; discriminate H].
    + rewrite andb_true_iff, N.eqb_eq, IH. split.
      * intros [-> [post ->]]. by exists post.
      * intros [post H]. injection H as -> ->. eauto.
Qed.

Lemma str_in_spec (sub s : str) :
  str_in sub s = true <-> contains s sub.
Proof.
  unfold contains. induction s as [|c s IH]; simpl.
  - rewrite orb_false_r, startswith_spec. split.
    + intros [post H]. by exists [], post.
    + intros [pre [post H]]. destruct pre as [|x pre]; [|discriminate H].
      by exists post.
  - rewrite orb_true_iff, IH, startswith_spec. split.
    + intros [[post H] | [pre [post H]]].
      * by exists [], post.
      * exists (c :: pre), post. simpl. by rewrite H.
    + intros [[|x pre] [post H]].
      * left. by exists post.
      * right. injection H as _ H. by exists pre, post.
Qed.

Lemma contains_start (sub post : str) : contains (sub ++ post) sub.
Proof. by exists [], post. Qed.

Lemma contains_refl (sub : str) : contains sub sub.
Proof. exists [], []. by rewrite app_nil_r. Qed.

Lemma contains_app_r (pre s sub : str) :
  contains s sub -> contains (pre ++ s) sub.
Proof.
  intros [a [b ->]]. exists (pre ++ a), b. by rewrite <- app_assoc.
Qed.

(** Finds a part of a text written as a chain of concatenations. *)
Ltac find_part :=
  first [ apply contains_start | apply contains_refl
        | apply contains_app_r; find_part ].

Lemma lstrip_head (s : str) :
  match lstrip s with
  | [] => True
  | c :: _ => isspace c = false
  end.
Proof.
  induction s as [|c s IH]; simpl; [done|].
  destruct (isspace c) eqn:E; [done | by simpl].
Qed.

Lemma lstrip_fixed (c : N) (s : str) :
  isspace c = false -> lstrip (c :: s) = c :: s.
Proof. intros E. simpl. by rewrite E. Qed.

Lemma rstrip_head (c : N) (s : str) :
  isspace c = false -> exists r, rstrip (c :: s) = c :: r.
Proof.
  intros E. simpl. destruct (rstrip s); rewrite ?E; eauto.
Qed.

Lemma rstrip_idem (s : str) : rstrip (rstrip s) = rstrip s.
Proof.
  induction s as [|c s IH]; simpl; [done|].
  destruct (rstrip s) as [|x r] eqn:E.
  - destruct (isspace c) eqn:Ec; simpl; [done | by rewrite Ec].
  - change (rstrip (c :: x :: r)) with
      (match rstrip (x :: r) with
       | [] => if isspace c then [] else [c]
       | r0 => c :: r0
       end).
    by rewrite IH.
Qed.

Lemma lstrip_strip (s : str) : lstrip (strip s) = strip s.
Proof.
  unfold strip. pose proof (lstrip_head s) as H.
  destruct (lstrip s) as [|c t]; [done|].
  destruct (rstrip_head c t H) as [r ->]. by apply lstrip_fixed.
Qed.

(** [strip] is idempotent: stripping a stripped text changes nothing. *)
Lemma strip_idem (s : str) : strip (strip s) = strip s.
Proof.
  unfold strip at 1. rewrite lstrip_strip. unfold strip. apply rstrip_idem.
Qed.

Lemma rstrip_nil (s : str) : rstrip s = [] <-> forallb isspace s = true.
Proof.
  induction s as [|c s IH]; simpl; [done|].
  destruct (rstrip s) as [|x r].
  - destruct (isspace c); simpl.
    + split; [intros _; by apply IH | done].
    + split; discriminate.
  - split; [discriminate|]. rewrite andb_true_iff. intros [_ H].
    by apply IH in H.
Qed.

Lemma forallb_lstrip (s : str) :
  forallb isspace (lstrip s) = forallb isspace s.
Proof.
  induction s as [|c s IH]; [done|]. cbn [lstrip].
  destruct (isspace c) eqn:E; cbn [forallb]; by rewrite E.
Qed.

(** A text strips to nothing exactly when it is all white space. *)
Lemma strip_nil (s : str) : strip s = [] <-> forallb isspace s = true.
Proof. unfold strip. by rewrite rstrip_nil, forallb_lstrip. Qed.

Lemma split_from_nil (cur s : str) :
  split_from cur s = [] <-> cur = [] /\ forallb isspace s = true.
Proof.
  revert cur. induction s as [|c s IH]; intros cur; simpl.
  - destruct cur; split; try done. by intros [? _].
  - destruct (isspace c); simpl.
    + destruct cur; [apply IH | split; [done | by intros [? _]]].
    + rewrite IH. split; [intros [H _] | intros [_ H]; discriminate H].
      by destruct cur.
Qed.

(** A text with a character that is not white space has a first token. *)
Lemma split_strip_first (s : str) :
  strip s <> [] -> exists tok rest, split (strip s) = tok :: rest.
Proof.
  intros H. destruct (split (strip s)) as [|tok rest] eqn:E; [|eauto].
  apply split_from_nil in E as [_ E]. apply rstrip_nil in E.
  unfold strip in E. rewrite rstrip_idem in E. done.
Qed.

Example strip_example :
  strip (lit "  물 이야기해줘 ") = lit "물 이야기해줘".
Proof. vm_compute. reflexivity. Qed.

Example split_example :
  split (lit " 물  이야기해줘 ") = [lit "물"; lit "이야기해줘"].
Proof. vm_compute. reflexivity. Qed.

Example split_blank : split (strip (lit "   ")) = [].
Proof. vm_compute. reflexivity. Qed.

Example str_in_example :
  str_in (lit "야기") (lit "물 이야기해줘") = true
  /\ str_in (lit "기야") (lit "물 이야기해줘") = false.
Proof. vm_compute. done. Qed.

(** ** The mirror transform *)

Example mirror_response_water :
  mirror_response (lit "물") (lit "고요함")
  = lit "거울상 (물):" ++ LF
    ++ lit "- 원문: 고요함" ++ LF
    ++ lit "- 대조: 물은/는 스스로 주장하지 않지만 모든 것을 담아낸다." ++ LF
    ++ lit "- 종합: 평화와 생명의 문".
Proof. vm_compute. reflexivity. Qed.

Example mirror_response_unknown :
  mirror_response (lit "별") (lit " 고요함 ")
  = lit "거울상: (주제 '별' 정의 없음)" ++ LF ++ LF ++ lit " 고요함 ".
Proof. vm_compute. reflexivity. Qed.

(** Every entry of the table is a one-key dictionary holding a conclusion. *)
Lemma mirror_hierarchy_entry (subject : str) (node : gmap str str) :
  mirror_hierarchy !! subject = Some node ->
  exists c, node = {[ lit "결론" := c ]}.
Proof.
  unfold mirror_hierarchy. intros H. apply elem_of_list_to_map_2 in H.
  repeat (apply elem_of_cons in H as [H|H]; [injection H as -> ->; eauto|]).
  by apply elem_of_nil in H.
Qed.

(** On a key of the table the second [return] of [mirror_response] runs. *)
Lemma mirror_response_found (subject original : str) :
  is_Some (mirror_hierarchy !! subject) ->
  exists c,
    conclusion subject = Some c /\
    mirror_response subject original =
      lit "거울상 (" ++ subject ++ lit "):" ++ LF
      ++ lit "- 원문: " ++ strip original ++ LF
      ++ lit "- 대조: " ++ contrastive subject ++ LF
      ++ lit "- 종합: " ++ c.
Proof.
  intros [node H]. destruct (mirror_hierarchy_entry _ _ H) as [c ->].
  exists c. unfold conclusion, mirror_response, contrastive. rewrite H.
  change (default ∅ (Some ?m)) with m.
  rewrite lookup_singleton_eq.
  destruct (decide (({[lit "결론" := c]} : gmap str str) = ∅)) as [E|_].
  - by apply map_non_empty_singleton in E.
  - split; [done|]. by rewrite <- !app_assoc.
Qed.

(** On a key the transform looks at [original] only through [strip]. *)
Lemma mirror_response_strip (subject original : str) :
  is_Some (mirror_hierarchy !! subject) ->
  mirror_response subject (strip original) = mirror_response subject original.
Proof.
  intros H.
  destruct (mirror_response_found subject original H) as [c [Hc ->]].
  destruct (mirror_response_found subject (strip original) H) as [c' [Hc' ->]].
  rewrite strip_idem. congruence.
Qed.

(** C1, as amended: for a subject that is a key of the mirror table, the
    result of [mirror_response] contains the original text with its leading
    and trailing white space stripped (hence the original text itself when
    it has none), the contrastive sentence with the subject in it, and the
    table's conclusion for the subject; equal inputs give equal results. *)
Theorem mirror_response_key (subject original : str) :
  is_Some (mirror_hierarchy !! subject) ->
  exists c,
    conclusion subject = Some c /\
    contains (mirror_response subject original) (strip original) /\
    (strip original = original ->
     contains (mirror_response subject original) original) /\
    contains (mirror_response subject original) (contrastive subject) /\
    contains (mirror_response subject original) c /\
    (forall subject' original',
        subject' = subject -> original' = original ->
        mirror_response subject' original' = mirror_response subject original).
Proof.
  intros H. destruct (mirror_response_found subject original H) as [c [Hc E]].
  exists c. rewrite E.
  assert (contains
            (lit "거울상 (" ++ subject ++ lit "):" ++ LF
             ++ lit "- 원문: " ++ strip original ++ LF
             ++ lit "- 대조: " ++ contrastive subject ++ LF
             ++ lit "- 종합: " ++ c) (strip original)) as Hstrip.
  { find_part. }
  repeat split; try done.
  - intros Heq. exact (eq_ind _ (contains _) Hstrip _ Heq).
  - find_part.
  - find_part.
  - intros ? ? -> ->. by rewrite E.
Qed.

(** C1, as stated, fails: the trailing space of the original text is not in
    the result, the source strips it (line 126). *)
Lemma mirror_response_key_not_literal :
  is_Some (mirror_hierarchy !! lit "물") /\
  ~ contains (mirror_response (lit "물") (lit "고요함 ")) (lit "고요함 ").
Proof.
  split.
  - vm_compute. eexists. reflexivity.
  - rewrite <- str_in_spec. vm_compute. discriminate.
Qed.

Lemma mirror_response_key_witness :
  exists c,
    conclusion (lit "물") = Some c /\
    contains (mirror_response (lit "물") (lit " 고요함 ")) (strip (lit " 고요함 ")) /\
    (strip (lit " 고요함 ") = lit " 고요함 " ->
     contains (mirror_response (lit "물") (lit " 고요함 ")) (lit " 고요함 ")) /\
    contains (mirror_response (lit "물") (lit " 고요함 ")) (contrastive (lit "물")) /\
    contains (mirror_response (lit "물") (lit " 고요함 ")) c /\
    (forall subject' original',
        subject' = lit "물" -> original' = lit " 고요함 " ->
        mirror_response subject' original'
        = mirror_response (lit "물") (lit " 고요함 ")).
Proof.
  apply (mirror_response_key (lit "물") (lit " 고요함 ")).
  vm_compute. eexists. reflexivity.
Defined.

(** C2: for a subject that is not a key of the mirror table,
    [mirror_response] returns the fallback text, which holds the subject
    and ends with the original text, unmodified; this being a function from
    strings to strings, there is a result for all inputs. *)
Theorem mirror_response_absent (subject original : str) :
  mirror_hierarchy !! subject = None ->
  mirror_response subject original = fallback_form subject original /\
  mirror_response subject original =
    lit "거울상: (주제 '" ++ subject ++ lit "' 정의 없음)" ++ LF ++ LF ++ original /\
  contains (mirror_response subject original) subject /\
  contains (mirror_response subject original) original.
Proof.
  intros H. unfold fallback_form, mirror_response. rewrite H.
  change (default ∅ None) with (∅ : gmap str str).
  destruct (decide ((∅ : gmap str str) = ∅)) as [_|E]; [|done].
  repeat split; find_part.
Qed.

Lemma mirror_response_absent_witness :
  mirror_response (lit "별") (lit " 고요함 ")
  = fallback_form (lit "별") (lit " 고요함 ") /\
  mirror_response (lit "별") (lit " 고요함 ") =
    lit "거울상: (주제 '" ++ lit "별" ++ lit "' 정의 없음)" ++ LF ++ LF
    ++ lit " 고요함 " /\
  contains (mirror_response (lit "별") (lit " 고요함 ")) (lit "별") /\
  contains (mirror_response (lit "별") (lit " 고요함 ")) (lit " 고요함 ").
Proof.
  apply (mirror_response_absent (lit "별") (lit " 고요함 ")).
  vm_compute. reflexivity.
Defined.

(** ** The script's steps, run *)

Lemma ask_gemini_run (text : str) (env : environment) (w : world) :
  ask_gemini text env w =
  match reply_to env w text with
  | Text t => (Returns (strip t), add_sent (request_of (widgets env) text) w)
  | Failure => (Raises ApiError, add_sent (request_of (widgets env) text) w)
  end.
Proof.
  unfold ask_gemini, reply_to, request_of, bind, widget, generate_content, ret.
  by destruct (provider env _ _).
Qed.

Lemma write_log_run (text : str) (env : environment) (w : world) :
  write_log text env w
  = (Returns tt, after_log (disk env (log_calls w)) (text ++ LF) w).
Proof.
  unfold write_log, bind, try_except, next_log_call, file_write, file_flush,
    after_log, written, ret.
  destruct w as [[f ms run] rs n sp]. cbn.
  by destruct (disk env n).
Qed.

Lemma speak_run (self : Speaker) (text : str) (env : environment) (w : world) :
  speak self text env w = (Returns tt, after_speech true self text w).
Proof.
  unfold speak, after_speech, start_thread, ret. cbn.
  by destruct (ok self && truthy (strip text)).
Qed.

Lemma user_input_section_run (speaker : Speaker) (env : environment)
    (w : world) :
  user_input_section speaker env w =
  let u := widgets env in
  if truthy (user_input u) then
    let w1 := add_sent (request_of u (user_input u)) w in
    match reply_to env w (user_input u) with
    | Failure => (Raises ApiError, w1)
    | Text t =>
      match user_answer u t with
      | None => (Raises IndexError, w1)
      | Some answer =>
        let w2 :=
          add_message (lit "assistant", answer)
            (add_message (lit "user", user_input u) w1) in
        let block :=
          (lit "USER: " ++ user_input u ++ LF ++ lit "ASSISTANT: " ++ answer)
          ++ LF in
        (Returns tt,
         after_speech (tts_enabled u) speaker answer
           (after_log (disk env (log_calls w)) block w2))
      end
    end
  else (Returns tt, w).
Proof.
  unfold user_input_section, user_answer. unfold bind at 1. unfold widget at 1.
  cbv zeta. destruct (truthy (user_input (widgets env))); [|done].
  unfold bind at 1. rewrite ask_gemini_run.
  destruct (reply_to env w _) as [t|]; [|done].
  unfold bind at 1. unfold widget at 1. unfold bind at 1.
  destruct (mirror_mode (widgets env)).
  - unfold bind at 1.
    destruct (split (strip (user_input (widgets env)))) as [|subject rest];
      [done|].
    unfold first_item, ret at 1 2. unfold bind, append_message, widget.
    rewrite write_log_run. 
    destruct (tts_enabled (widgets env)); [by rewrite speak_run|done].
  - unfold ret at 1. unfold bind, append_message, widget.
    rewrite write_log_run. 
    destruct (tts_enabled (widgets env)); [by rewrite speak_run|done].
Qed.

Lemma monologue_section_run (speaker : Speaker) (env : environment)
    (w : world) :
  monologue_section speaker env w =
  let u := widgets env in
  if monologue_running (session w) then
    let w1 := add_sent (request_of u monologue_prompt) w in
    match reply_to env w monologue_prompt with
    | Failure => (Raises ApiError, w1)
    | Text t =>
      let answer := monologue_answer u t in
      let block := (lit "ASSISTANT(MONO): " ++ answer) ++ LF in
      (Returns tt,
       after_speech (tts_enabled u) speaker answer
         (after_log (disk env (log_calls w)) block
            (add_message (lit "assistant", answer) w1)))
    end
  else (Returns tt, w).
Proof.
  unfold monologue_section, monologue_answer. unfold bind at 1.
  unfold get_running at 1. cbv zeta.
  destruct (monologue_running (session w)); [|done].
  unfold bind at 1. rewrite ask_gemini_run.
  destruct (reply_to env w _) as [t|]; [|done].
  unfold bind at 1. unfold widget at 1. unfold bind at 1.
  destruct (mirror_mode (widgets env)); unfold ret at 1;
    unfold bind, append_message, widget; rewrite write_log_run;
    (destruct (tts_enabled (widgets env)); [by rewrite speak_run|done]).
Qed.

Lemma buttons_run (env : environment) (w : world) :
  buttons env w = (Returns tt, after_buttons (widgets env) w).
Proof.
  unfold buttons, after_buttons, bind, widget, set_running, ret.
  by destruct (start_clicked (widgets env)), (stop_clicked (widgets env)).
Qed.

Lemma script_run (env : environment) (w : world) :
  script env w =
  let speaker := Speaker_init (tts_engine env) in
  match user_input_section speaker env (after_buttons (widgets env) w) with
  | (Returns _, w') => monologue_section speaker env w'
  | (Raises e, w') => (Raises e, w')
  end.
Proof.
  unfold script. unfold bind at 1. unfold the_speaker at 1.
  unfold bind at 1. rewrite buttons_run. reflexivity.
Qed.

(** What the model client returns is the provider's text, stripped; it
    raises exactly when the provider fails. *)
Lemma ask_gemini_returns (text t : str) (env : environment) (w : world) :
  (ask_gemini text env w).1 = Returns t <->
  exists raw, reply_to env w text = Text raw /\ t = strip raw.
Proof.
  rewrite ask_gemini_run. destruct (reply_to env w text) as [raw|]; cbn.
  - split; [intros [= <-]; eauto | intros [? [[= <-] ->]]; done].
  - split; [done | intros [? [? _]]; done].
Qed.

Lemma ask_gemini_raises (text : str) (env : environment) (w : world) :
  (ask_gemini text env w).1 = Raises ApiError <->
  reply_to env w text = Failure.
Proof.
  rewrite ask_gemini_run. by destruct (reply_to env w text) as [raw|].
Qed.

Lemma session_after_speech (tts : bool) (speaker : Speaker) (answer : str)
    (w : world) :
  session (after_speech tts speaker answer w) = session w.
Proof. unfold after_speech. by destruct (_ && _). Qed.

Lemma sent_after_speech (tts : bool) (speaker : Speaker) (answer : str)
    (w : world) :
  sent (after_speech tts speaker answer w) = sent w.
Proof. unfold after_speech. by destruct (_ && _). Qed.

Lemma same_reply_with_disk (d : nat -> io_outcome) (env : environment)
    (w : world) (text : str) :
  reply_to (with_disk d env) w text = reply_to env w text.
Proof. reflexivity. Qed.

(** ** The model client *)

(** C3: the request [ask_gemini] transmits carries the widgets' values of
    [max_output_tokens], [temperature] and [top_p] unchanged, and has no
    [top_k] and no [repetition_penalty] field, whatever those two widgets
    hold; its configuration has these three fields and no other. *)
Theorem ask_gemini_request (text : str) (env : environment) (w : world) :
  exists r,
    sent (ask_gemini text env w).2 = sent w ++ [r] /\
    prompt r = text /\
    generation_config r !! "max_output_tokens"
      = Some (VInt (max_tokens (widgets env))) /\
    generation_config r !! "temperature"
      = Some (VFloat (temperature (widgets env))) /\
    generation_config r !! "top_p" = Some (VFloat (top_p (widgets env))) /\
    generation_config r !! "top_k" = None /\
    generation_config r !! "repetition_penalty" = None /\
    dom (generation_config r)
      = ({[ "max_output_tokens"; "temperature"; "top_p" ]} : gset string).
Proof.
  exists (request_of (widgets env) text). rewrite ask_gemini_run.
  split; [by destruct (reply_to env w text)|].
  unfold request_of, GenerationConfig. cbn [prompt generation_config].
  repeat split; by simplify_map_eq.
Qed.

(** At the widgets' bounds (10 and 8192 tokens, temperatures 0 and 2,
    [top_p] 0 and 1) the request holds exactly the bounds, whatever [top_k]
    and [repetition_penalty] are. *)
Example ask_gemini_request_at_bounds (k : Z) (pen : float) (text : str) :
  generation_config
    (request_of
       {| max_tokens := 10; temperature := 0%float; top_k := k;
          top_p := 0%float; repeat_penalty := pen; tts_enabled := false;
          mirror_mode := false; start_clicked := false;
          stop_clicked := false; user_input := text |} text)
  = <["max_output_tokens" := VInt 10]>
      (<["temperature" := VFloat 0]> (<["top_p" := VFloat 0]> ∅)) /\
  generation_config
    (request_of
       {| max_tokens := 8192; temperature := 2%float; top_k := k;
          top_p := 1%float; repeat_penalty := pen; tts_enabled := false;
          mirror_mode := false; start_clicked := false;
          stop_clicked := false; user_input := text |} text)
  = <["max_output_tokens" := VInt 8192]>
      (<["temperature" := VFloat 2]> (<["top_p" := VFloat 1]> ∅)).
Proof. done. Qed.

(** ** The session log *)

(** C4: [write_log] returns normally whatever the write and the flush do,
    and touches nothing but the log; the outcome of the write changes
    neither how the user section and the monologue section end nor the
    history they leave. *)
Theorem write_log_never_raises (text : str) (env : environment) (w : world) :
  (exists w',
      write_log text env w = (Returns tt, w') /\
      messages (session w') = messages (session w) /\
      monologue_running (session w') = monologue_running (session w) /\
      sent w' = sent w /\ spoken w' = spoken w) /\
  (forall speaker d,
      (user_input_section speaker (with_disk d env) w).1
      = (user_input_section speaker env w).1 /\
      messages (session (user_input_section speaker (with_disk d env) w).2)
      = messages (session (user_input_section speaker env w).2)) /\
  (forall speaker d,
      (monologue_section speaker (with_disk d env) w).1
      = (monologue_section speaker env w).1 /\
      messages (session (monologue_section speaker (with_disk d env) w).2)
      = messages (session (monologue_section speaker env w).2)).
Proof.
  split; [|split].
  - rewrite write_log_run. eexists. split; [reflexivity|]. by cbn.
  - intros speaker d. rewrite !user_input_section_run. cbv zeta.
    rewrite same_reply_with_disk.
    change (widgets (with_disk d env)) with (widgets env).
    destruct (truthy _); [|done].
    destruct (reply_to env w _) as [t|]; [|done].
    destruct (user_answer _ t); [|done].
    cbn [fst snd]. by rewrite !session_after_speech.
  - intros speaker d. rewrite !monologue_section_run. cbv zeta.
    rewrite same_reply_with_disk.
    change (widgets (with_disk d env)) with (widgets env).
    destruct (monologue_running _); [|done].
    destruct (reply_to env w _) as [t|]; [|done].
    cbn [fst snd]. by rewrite !session_after_speech.
Qed.

(** A write that fails in the specification's scenario: the section ends
    normally, the history has both messages, the log has nothing. *)
Example user_submission_write_fails :
  exists w',
    user_input_section (Speaker_init (Some Engine))
      (example_env (lit "물 이야기해줘") true false (Text (lit "고요함"))
         WriteRaises)
      (first_world {| on_disk := []; pending := [] |})
    = (Returns tt, w') /\
    messages (session w')
    = [ (lit "user", lit "물 이야기해줘");
        (lit "assistant", mirror_response (lit "물") (lit "고요함")) ] /\
    logger (session w') = {| on_disk := []; pending := [] |}.
Proof.
  rewrite user_input_section_run. eexists. split; [reflexivity|].
  split; vm_compute; reflexivity.
Qed.

(** ** The speaker *)

(** C9: [speak] always returns normally; it schedules a playback exactly
    when the engine was initialised ([ok]) and the text, stripped, is not
    empty, and otherwise leaves the world as it is; a speaker whose engine
    failed to start has [ok = false]. *)
Theorem speak_schedules (self : Speaker) (text : str) (env : environment)
    (w : world) :
  exists w',
    speak self text env w = (Returns tt, w') /\
    (ok self = false \/ strip text = [] -> w' = w) /\
    (ok self = true /\ strip text <> [] -> spoken w' = spoken w ++ [text]) /\
    (spoken w' <> spoken w <-> ok self = true /\ strip text <> []) /\
    session w' = session w /\
    ok (Speaker_init None) = false /\
    (forall e, ok (Speaker_init (Some e)) = true).
Proof.
  unfold speak, start_thread, ret.
  assert (forall l : list str, l ++ [text] <> l) as Hne.
  { intros l H. apply (f_equal length) in H. rewrite length_app in H.
    cbn in H. lia. }
  destruct (ok self), (strip text) as [|c s]; cbn; eexists;
    (split; [reflexivity|]); cbn; repeat split; try done;
    try (intros [? | ?]; done); try (intros [? ?]; done); naive_solver.
Qed.

(** ** The user section *)

(** The section runs for every text that is not empty, stripped or not. *)
Lemma user_input_section_guard (speaker : Speaker) (env : environment)
    (w : world) :
  (user_input (widgets env) = [] ->
   user_input_section speaker env w = (Returns tt, w)) /\
  (user_input (widgets env) <> [] ->
   sent (user_input_section speaker env w).2
   = sent w ++ [request_of (widgets env) (user_input (widgets env))]).
Proof.
  rewrite user_input_section_run. cbv zeta.
  destruct (user_input (widgets env)) as [|c s] eqn:E; [by split|].
  split; [done | intros _]. cbn [truthy].
  destruct (reply_to env w _) as [t|]; [|done].
  destruct (user_answer _ t); [|done].
  cbn [snd]. unfold after_speech. by destruct (_ && _).
Qed.

(** When the text, stripped, is not empty, the subject is there. *)
Lemma user_answer_some (u : ui) (t : str) :
  strip (user_input u) <> [] -> is_Some (user_answer u t).
Proof.
  intros H. unfold user_answer. destruct (mirror_mode u); [|eauto].
  destruct (split_strip_first _ H) as [tok [rest ->]]. eauto.
Qed.

(** C5 fails on the code: a text of one space passes the guard of line 152
    (it is not empty), the request goes out, and in mirror mode
    [user_input.strip().split()[0]] raises [IndexError]; nothing is added
    to the history or the log. *)
Theorem user_input_section_blank_raises :
  strip (lit " ") = [] /\
  truthy (lit " ") = true /\
  forall speaker r o w,
    user_input_section speaker
      (example_env (lit " ") true false (Text r) o) w
    = (Raises IndexError,
       add_sent (request_of (example_ui (lit " ") true false) (lit " ")) w).
Proof.
  split; [done|]. split; [done|]. intros speaker r o w.
  by rewrite user_input_section_run.
Qed.

(** C6: in mirror mode, when the stripped text has a first token (a key of
    the mirror table or not) and the model client returns [t], the user
    section ends normally, the history gains the user's message and then
    the assistant's, whose text is [mirror_response] of that token and [t],
    and nothing else; when the write succeeds the log gains the block
    [USER: <text>\nASSISTANT: <transformed>\n], after whatever an earlier
    failed flush left in the buffer. *)
Theorem user_submission_mirror (speaker : Speaker) (env : environment)
    (w : world) (t subject : str) (rest : list str) :
  mirror_mode (widgets env) = true ->
  split (strip (user_input (widgets env))) = subject :: rest ->
  (ask_gemini (user_input (widgets env)) env w).1 = Returns t ->
  exists w',
    user_input_section speaker env w = (Returns tt, w') /\
    messages (session w')
    = messages (session w)
      ++ [ (lit "user", user_input (widgets env));
           (lit "assistant", mirror_response subject t) ] /\
    (disk env (log_calls w) = IoOk ->
     on_disk (logger (session w'))
     = on_disk (logger (session w)) ++ pending (logger (session w))
       ++ lit "USER: " ++ user_input (widgets env) ++ LF
       ++ lit "ASSISTANT: " ++ mirror_response subject t ++ LF /\
     pending (logger (session w')) = [] /\
     (pending (logger (session w)) = [] ->
      on_disk (logger (session w'))
      = on_disk (logger (session w))
        ++ lit "USER: " ++ user_input (widgets env) ++ LF
        ++ lit "ASSISTANT: " ++ mirror_response subject t ++ LF)).
Proof.
  intros Hmirror Hsplit Hask.
  apply ask_gemini_returns in Hask as [raw [Hreply ->]].
  rewrite user_input_section_run. cbv zeta.
  assert (truthy (user_input (widgets env)) = true) as ->.
  { destruct (user_input (widgets env)); [discriminate Hsplit | done]. }
  rewrite Hreply. unfold user_answer. rewrite Hmirror, Hsplit.
  eexists. split; [reflexivity|]. rewrite session_after_speech.
  split.
  - cbn. by rewrite <- app_assoc.
  - intros ->. cbn. rewrite <- !app_assoc. repeat split. by intros ->.
Qed.

(** The scenario of the specification: "물 이야기해줘", mirror mode on, the
    model answers "고요함". *)
Lemma user_submission_mirror_witness :
  exists w',
    user_input_section (Speaker_init (Some Engine))
      (example_env (lit "물 이야기해줘") true false (Text (lit "고요함")) IoOk)
      (first_world {| on_disk := []; pending := [] |})
    = (Returns tt, w') /\
    messages (session w')
    = [ (lit "user", lit "물 이야기해줘");
        (lit "assistant", mirror_response (lit "물") (lit "고요함")) ] /\
    on_disk (logger (session w'))
    = lit "USER: " ++ lit "물 이야기해줘" ++ LF
      ++ lit "ASSISTANT: " ++ mirror_response (lit "물") (lit "고요함") ++ LF.
Proof.
  destruct (user_submission_mirror (Speaker_init (Some Engine))
              (example_env (lit "물 이야기해줘") true false
                 (Text (lit "고요함")) IoOk)
              (first_world {| on_disk := []; pending := [] |})
              (lit "고요함") (lit "물") [lit "이야기해줘"])
    as (w' & Hrun & Hmsg & Hlog).
  - reflexivity.
  - vm_compute. reflexivity.
  - vm_compute. reflexivity.
  - exists w'. split; [exact Hrun|]. split; [exact Hmsg|].
    destruct (Hlog eq_refl) as (_ & _ & H). exact (H eq_refl).
Defined.

(** ** The monologue section *)

(** C7: on a monologue cycle where the model client returns [t], the
    section ends normally and the history gains one message, the
    assistant's, whose text is [t] with mirror mode off and
    [mirror_response "혼잣말" t] with mirror mode on; when the write
    succeeds the log gains the record [ASSISTANT(MONO): <text>] and its
    line end, after whatever an earlier failed flush left in the buffer. *)
Theorem monologue_cycle (speaker : Speaker) (env : environment) (w : world)
    (t : str) :
  monologue_running (session w) = true ->
  (ask_gemini monologue_prompt env w).1 = Returns t ->
  exists w' text,
    text = (if mirror_mode (widgets env)
            then mirror_response (lit "혼잣말") t else t) /\
    monologue_section speaker env w = (Returns tt, w') /\
    messages (session w') = messages (session w) ++ [(lit "assistant", text)] /\
    (disk env (log_calls w) = IoOk ->
     on_disk (logger (session w'))
     = on_disk (logger (session w)) ++ pending (logger (session w))
       ++ lit "ASSISTANT(MONO): " ++ text ++ LF /\
     pending (logger (session w')) = [] /\
     (pending (logger (session w)) = [] ->
      on_disk (logger (session w'))
      = on_disk (logger (session w))
        ++ lit "ASSISTANT(MONO): " ++ text ++ LF)).
Proof.
  intros Hrun Hask.
  apply ask_gemini_returns in Hask as [raw [Hreply ->]].
  rewrite monologue_section_run. cbv zeta. rewrite Hrun, Hreply.
  eexists. exists (monologue_answer (widgets env) raw).
  split; [reflexivity|]. split; [reflexivity|].
  rewrite session_after_speech. split; [done|].
  intros ->. cbn. rewrite <- !app_assoc. repeat split. by intros ->.
Qed.

(** The scenario of the specification: the monologue is running, mirror
    mode is off, the model answers "평화의 속삭임". *)
Lemma monologue_cycle_witness :
  exists w',
    monologue_section (Speaker_init (Some Engine))
      (example_env [] false false (Text (lit "평화의 속삭임")) IoOk)
      (set_session
         (set_monologue_running true
            (session (first_world {| on_disk := []; pending := [] |})))
         (first_world {| on_disk := []; pending := [] |}))
    = (Returns tt, w') /\
    messages (session w') = [ (lit "assistant", lit "평화의 속삭임") ] /\
    on_disk (logger (session w'))
    = lit "ASSISTANT(MONO): " ++ lit "평화의 속삭임" ++ LF.
Proof.
  destruct (monologue_cycle (Speaker_init (Some Engine))
              (example_env [] false false (Text (lit "평화의 속삭임")) IoOk)
              (set_session
                 (set_monologue_running true
                    (session (first_world {| on_disk := []; pending := [] |})))
                 (first_world {| on_disk := []; pending := [] |}))
              (lit "평화의 속삭임"))
    as (w' & text & Htext & Hrun & Hmsg & Hlog).
  - reflexivity.
  - vm_compute. reflexivity.
  - exists w'. rewrite Htext in Hmsg, Hlog.
    split; [exact Hrun|]. split; [exact Hmsg|].
    destruct (Hlog eq_refl) as (_ & _ & H). exact (H eq_refl).
Defined.

(** ** Generation errors *)

(** C10: when the generation call raises in the user section, or in the
    monologue section, the section ends with that [ApiError] and leaves the
    session state, history and log included, as it found it; so does a
    whole pass of the script whose first generation call raises. *)
Theorem generation_error_keeps_state (speaker : Speaker) (env : environment)
    (w : world) :
  (user_input (widgets env) <> [] ->
   (ask_gemini (user_input (widgets env)) env w).1 = Raises ApiError ->
   exists w',
     user_input_section speaker env w = (Raises ApiError, w') /\
     session w' = session w /\ log_calls w' = log_calls w /\
     spoken w' = spoken w) /\
  (monologue_running (session w) = true ->
   (ask_gemini monologue_prompt env w).1 = Raises ApiError ->
   exists w',
     monologue_section speaker env w = (Raises ApiError, w') /\
     session w' = session w /\ log_calls w' = log_calls w /\
     spoken w' = spoken w) /\
  (user_input (widgets env) <> [] ->
   (ask_gemini (user_input (widgets env)) env w).1 = Raises ApiError ->
   exists w',
     script env w = (Raises ApiError, w') /\
     messages (session w') = messages (session w) /\
     logger (session w') = logger (session w)) /\
  (user_input (widgets env) = [] ->
   monologue_running (session (after_buttons (widgets env) w)) = true ->
   (ask_gemini monologue_prompt env w).1 = Raises ApiError ->
   exists w',
     script env w = (Raises ApiError, w') /\
     messages (session w') = messages (session w) /\
     logger (session w') = logger (session w)).
Proof.
  assert (forall u, messages (session (after_buttons u w))
                    = messages (session w)
                    /\ logger (session (after_buttons u w))
                       = logger (session w)) as Hb.
  { intros u. unfold after_buttons.
    by destruct (start_clicked u), (stop_clicked u). }
  assert (forall u text, reply_to env (after_buttons u w) text
                         = reply_to env w text) as Hr.
  { intros u text. unfold reply_to, after_buttons.
    by destruct (start_clicked u), (stop_clicked u). }
  repeat split.
  - intros Hne Hask. apply ask_gemini_raises in Hask.
    rewrite user_input_section_run. cbv zeta. rewrite Hask.
    destruct (user_input (widgets env)); [done|]. cbn [truthy]. eauto.
  - intros Hrun Hask. apply ask_gemini_raises in Hask.
    rewrite monologue_section_run. cbv zeta. rewrite Hrun, Hask. eauto.
  - intros Hne Hask. apply ask_gemini_raises in Hask.
    rewrite script_run. cbv zeta. rewrite user_input_section_run. cbv zeta.
    rewrite Hr, Hask. destruct (user_input (widgets env)); [done|].
    cbn [truthy]. eexists. split; [reflexivity|]. apply Hb.
  - intros Hnil Hrun Hask. apply ask_gemini_raises in Hask.
    rewrite script_run. cbv zeta. rewrite user_input_section_run. cbv zeta.
    rewrite Hnil. cbn [truthy]. rewrite monologue_section_run. cbv zeta.
    rewrite Hrun, Hr, Hask. eexists. split; [reflexivity|]. apply Hb.
Qed.

Lemma generation_error_keeps_state_witness :
  (exists w',
      user_input_section (Speaker_init (Some Engine))
        (example_env (lit "물 이야기해줘") true true Failure IoOk)
        (first_world {| on_disk := []; pending := [] |})
      = (Raises ApiError, w') /\
      session w' = session (first_world {| on_disk := []; pending := [] |}) /\
      log_calls w' = 0%nat /\ spoken w' = []) /\
  (exists w',
      script (example_env (lit "물 이야기해줘") true true Failure IoOk)
        (first_world {| on_disk := []; pending := [] |})
      = (Raises ApiError, w') /\
      messages (session w') = [] /\
      logger (session w') = {| on_disk := []; pending := [] |}).
Proof.
  pose proof (generation_error_keeps_state (Speaker_init (Some Engine))
                (example_env (lit "물 이야기해줘") true true Failure IoOk)
                (first_world {| on_disk := []; pending := [] |}))
    as (Huser & _ & Hscript & _).
  split.
  - apply Huser; [vm_compute; discriminate | vm_compute; reflexivity].
  - apply Hscript; [vm_compute; discriminate | vm_compute; reflexivity].
Defined.

(** A pass that handles a text and a monologue cycle makes two generation
    calls; when only the second raises, what the user section added
    stays. *)
Lemma script_second_call_raises (env : environment) (w : world)
    (answer : str) (c : N) (s : str) :
  user_input (widgets env) = c :: s ->
  mirror_mode (widgets env) = false ->
  monologue_running (session (after_buttons (widgets env) w)) = true ->
  provider env (length (sent w)) (request_of (widgets env) (c :: s))
  = Text answer ->
  provider env (S (length (sent w)))
    (request_of (widgets env) monologue_prompt) = Failure ->
  exists w',
    script env w = (Raises ApiError, w') /\
    messages (session w')
    = messages (session w)
      ++ [(lit "user", c :: s); (lit "assistant", strip answer)].
Proof.
  intros Htext Hmirror Hrun Hfirst Hsecond.
  assert (forall u, messages (session (after_buttons u w))
                    = messages (session w)
                    /\ sent (after_buttons u w) = sent w) as Hb.
  { intros u. unfold after_buttons.
    by destruct (start_clicked u), (stop_clicked u). }
  rewrite script_run. cbv zeta. rewrite user_input_section_run. cbv zeta.
  unfold user_answer. rewrite Htext, Hmirror. cbn [truthy].
  unfold reply_to at 1. rewrite (proj2 (Hb _)), Hfirst.
  set (w2 := after_speech _ _ _ _).
  assert (sent w2 = sent w ++ [request_of (widgets env) (c :: s)]) as Hsent.
  { unfold w2. rewrite sent_after_speech. cbn. by rewrite (proj2 (Hb _)). }
  assert (session w2
          = session (after_log
                       (disk env (log_calls (after_buttons (widgets env) w)))
                       ((lit "USER: " ++ (c :: s) ++ LF
                         ++ lit "ASSISTANT: " ++ strip answer) ++ LF)
                       (add_message (lit "assistant", strip answer)
                          (add_message (lit "user", c :: s)
                             (add_sent (request_of (widgets env) (c :: s))
                                (after_buttons (widgets env) w))))))
    as Hsession by apply session_after_speech.
  assert (monologue_running (session w2) = true) as Hrun2.
  { rewrite Hsession. exact Hrun. }
  assert (messages (session w2)
          = messages (session w)
            ++ [(lit "user", c :: s); (lit "assistant", strip answer)])
    as Hmsg2.
  { rewrite Hsession. cbn. rewrite (proj1 (Hb _)). by rewrite <- app_assoc. }
  clearbody w2.
  rewrite monologue_section_run. cbv zeta. rewrite Hrun2.
  unfold reply_to. rewrite Hsent, length_app. cbn [length].
  replace (length (sent w) + 1)%nat with (S (length (sent w))) by lia.
  rewrite Hsecond. eexists. split; [reflexivity | exact Hmsg2].
Qed.

(** ** The soliloquy state machine *)

Lemma user_input_section_running (speaker : Speaker) (env : environment)
    (w : world) :
  monologue_running (session (user_input_section speaker env w).2)
  = monologue_running (session w).
Proof.
  rewrite user_input_section_run. cbv zeta.
  destruct (truthy _); [|done].
  destruct (reply_to env w _) as [t|]; [|done].
  destruct (user_answer _ t); [|done].
  cbn [snd]. by rewrite session_after_speech.
Qed.

Lemma monologue_section_running (speaker : Speaker) (env : environment)
    (w : world) :
  monologue_running (session (monologue_section speaker env w).2)
  = monologue_running (session w).
Proof.
  rewrite monologue_section_run. cbv zeta.
  destruct (monologue_running (session w)) eqn:E; [|exact E].
  destruct (reply_to env w _) as [t|]; [|exact E].
  cbn [snd]. rewrite session_after_speech. exact E.
Qed.

(** Only the buttons move the flag, whatever else the pass does. *)
Lemma script_running (env : environment) (w : world) :
  monologue_running (session (script env w).2)
  = monologue_running (session (after_buttons (widgets env) w)).
Proof.
  rewrite script_run. cbv zeta.
  pose proof (user_input_section_running (Speaker_init (tts_engine env)) env
                (after_buttons (widgets env) w)) as Hu.
  destruct (user_input_section _ env _) as [[[]|e] w1]; cbn [snd] in *.
  - by rewrite monologue_section_running.
  - done.
Qed.

Lemma script_click (b : button) (env : environment) (w : world) :
  soliloquy_state (session (script (click b env) w).2)
  = match b with Start => SoliloquyActive | Stop => Idle end.
Proof.
  unfold soliloquy_state. rewrite script_running. by destruct b.
Qed.

(** A pass no button triggered leaves the state where it was. *)
Lemma script_no_click (env : environment) (w : world) :
  start_clicked (widgets env) = false ->
  stop_clicked (widgets env) = false ->
  soliloquy_state (session (script env w).2) = soliloquy_state (session w).
Proof.
  intros Hstart Hstop. unfold soliloquy_state. rewrite script_running.
  unfold after_buttons. by rewrite Hstart, Hstop.
Qed.

(** C8: a session starts in [Idle]; a pass triggered by "start" ends in
    [SoliloquyActive] and one triggered by "stop" ends in [Idle], from any
    state and whatever else the pass does; so "start" twice is "start"
    once, and after any run of clicks the state is the one the last click
    asks for. *)
Theorem soliloquy_machine :
  (forall opened, soliloquy_state (session (first_world opened)) = Idle) /\
  (forall env w,
      soliloquy_state (session (script (click Start env) w).2)
      = SoliloquyActive) /\
  (forall env w,
      soliloquy_state (session (script (click Stop env) w).2) = Idle) /\
  (forall env1 env2 w,
      soliloquy_state (session (clicks [(Start, env1); (Start, env2)] w))
      = soliloquy_state (session (clicks [(Start, env1)] w))) /\
  (forall evs b env w,
      soliloquy_state (session (clicks (evs ++ [(b, env)]) w))
      = match b with Start => SoliloquyActive | Stop => Idle end).
Proof.
  repeat split.
  - intros env w. apply (script_click Start).
  - intros env w. apply (script_click Stop).
  - intros env1 env2 w. cbn [clicks].
    by rewrite (script_click Start), (script_click Start).
  - intros evs b env. induction evs as [|[b' env'] evs IH]; intros w.
    + apply script_click.
    + cbn [clicks app]. apply IH.
Qed.


(** * Further properties *)

(** ** Subject extraction (line 155) *)

Lemma split_from_first (s cur tok : str) (rest : list str) :
  split_from cur s = tok :: rest ->
  (cur <> [] ->
   exists pre post,
     tok = cur ++ pre /\ s = pre ++ post /\ Forall nonspace pre /\
     token_end post) /\
  (cur = [] ->
   exists post,
     lstrip s = tok ++ post /\ token_end post /\ tok <> [] /\
     Forall nonspace tok).
Proof.
  revert cur. induction s as [|c s IH]; intros cur H.
  - cbn in H. destruct cur as [|x cur]; [done|]. injection H as <- <-.
    split; [|done]. intros _. exists [], []. by rewrite app_nil_r.
  - cbn [split_from] in H. destruct (isspace c) eqn:Ec.
    + destruct cur as [|x cur].
      * split; [done|]. intros _. cbn [lstrip]. rewrite Ec.
        by apply (IH []).
      * injection H as <- <-. split; [|done]. intros _.
        exists [], (c :: s). by rewrite app_nil_r.
    + destruct (IH _ H) as [IH1 _].
      destruct IH1 as (pre & post & -> & -> & Hpre & Hend);
        [by destruct cur|].
      split.
      * intros _. exists (c :: pre), post.
        rewrite <- app_assoc. repeat split; [|done]. by constructor.
      * intros ->. exists post. cbn [lstrip]. rewrite Ec.
        repeat split; [done| done |]. by constructor.
Qed.

(** X1: the subject the user section extracts is not empty, holds no white
    space, and is the beginning of the stripped text up to its end or to
    the first white space. *)
Theorem first_token_spec (text tok : str) (rest : list str) :
  split (strip text) = tok :: rest ->
  tok <> [] /\ Forall nonspace tok /\
  exists post, strip text = tok ++ post /\ token_end post.
Proof.
  intros H. destruct (split_from_first _ _ _ _ H) as [_ Hnil].
  destruct (Hnil eq_refl) as (post & Hpost & Hend & Hne & Hns).
  rewrite lstrip_strip in Hpost. eauto.
Qed.

Lemma first_token_spec_witness :
  lit "물" <> [] /\ Forall nonspace (lit "물") /\
  exists post, strip (lit "  물 이야기해줘 ") = lit "물" ++ post /\ token_end post.
Proof.
  apply (first_token_spec (lit "  물 이야기해줘 ") (lit "물") [lit "이야기해줘"]).
  vm_compute. reflexivity.
Defined.

Lemma split_from_blank (cur s : str) :
  forallb isspace s = true ->
  split_from cur s = match cur with [] => [] | _ => [cur] end.
Proof.
  revert cur. induction s as [|c s IH]; intros cur H; [done|].
  cbn in H. apply andb_true_iff in H as [Hc Hs]. cbn [split_from].
  rewrite Hc, (IH [] Hs). by destruct cur.
Qed.

Lemma split_from_cons (cur : str) (c : N) (s : str) :
  split_from cur (c :: s)
  = if isspace c
    then match cur with
         | [] => split_from [] s
         | _ => cur :: split_from [] s
         end
    else split_from (cur ++ [c]) s.
Proof. reflexivity. Qed.

Lemma split_from_rstrip (cur s : str) :
  split_from cur (rstrip s) = split_from cur s.
Proof.
  revert cur. induction s as [|c s IH]; intros cur; [done|].
  cbn [rstrip]. destruct (rstrip s) as [|x r] eqn:E.
  - apply rstrip_nil in E. cbn [split_from].
    destruct (isspace c) eqn:Ec.
    + rewrite (split_from_blank [] s E). by destruct cur.
    + cbn [split_from]. rewrite Ec, (split_from_blank _ s E).
      by destruct cur.
  - rewrite (split_from_cons cur c (x :: r)), (split_from_cons cur c s).
    by rewrite !IH.
Qed.

Lemma split_lstrip (s : str) : split (lstrip s) = split s.
Proof.
  unfold split. induction s as [|c s IH]; [done|].
  rewrite (split_from_cons [] c s). cbn [lstrip].
  destruct (isspace c) eqn:Ec; [done|]. by rewrite split_from_cons, Ec.
Qed.

(** X2: stripping the text before splitting it changes nothing: the tokens
    of [text.strip().split()] are those of [text.split()]. *)
Theorem strip_before_split_redundant (text : str) :
  split (strip text) = split text.
Proof.
  unfold strip, split. rewrite split_from_rstrip. apply split_lstrip.
Qed.

(** ** The mirror transform, further *)

Lemma mirror_response_fallback (subject original : str) :
  mirror_hierarchy !! subject = None ->
  mirror_response subject original = fallback_form subject original.
Proof.
  intros H. unfold fallback_form, mirror_response. rewrite H.
  change (default ∅ None) with (∅ : gmap str str).
  by destruct (decide ((∅ : gmap str str) = ∅)).
Qed.

(** X3: on a key of the table two originals give the same text exactly when
    they agree once stripped; off the table, exactly when they are equal
    (the fallback keeps the white space around the original). *)
Theorem mirror_response_same_text (subject o1 o2 : str) :
  (is_Some (mirror_hierarchy !! subject) ->
   mirror_response subject o1 = mirror_response subject o2
   <-> strip o1 = strip o2) /\
  (mirror_hierarchy !! subject = None ->
   mirror_response subject o1 = mirror_response subject o2 <-> o1 = o2).
Proof.
  split.
  - intros H.
    destruct (mirror_response_found subject o1 H) as [c [Hc ->]].
    destruct (mirror_response_found subject o2 H) as [c' [Hc' ->]].
    assert (c' = c) as -> by congruence. split.
    + intros E. do 5 apply app_inv_head in E. by apply app_inv_tail in E.
    + by intros ->.
  - intros H. rewrite !mirror_response_fallback by done. unfold fallback_form.
    split; [|by intros ->]. intros E. by do 5 apply app_inv_head in E.
Qed.

Lemma mirror_response_same_text_witness :
  (mirror_response (lit "물") (lit " 고요함 ")
   = mirror_response (lit "물") (lit "고요함")
   <-> strip (lit " 고요함 ") = strip (lit "고요함")) /\
  (mirror_response (lit "별") (lit " 고요함 ")
   = mirror_response (lit "별") (lit "고요함")
   <-> lit " 고요함 " = lit "고요함").
Proof.
  split.
  - apply (mirror_response_same_text (lit "물")).
    vm_compute. eexists. reflexivity.
  - apply (mirror_response_same_text (lit "별")). vm_compute. reflexivity.
Defined.

Lemma strip_starts_nonspace (c : N) (s : str) :
  isspace c = false -> exists r, strip (c :: s) = c :: r.
Proof.
  intros E. unfold strip. rewrite lstrip_fixed by done. by apply rstrip_head.
Qed.

(** X4: whatever the subject and the original, the text [mirror_response]
    returns begins with the mark "거울상" and does not strip to nothing, so
    it is never a text the speaker would skip. *)
Theorem mirror_response_marked (subject original : str) :
  (exists rest, mirror_response subject original = lit "거울상" ++ rest) /\
  strip (mirror_response subject original) <> [].
Proof.
  assert (exists rest, mirror_response subject original = lit "거울상" ++ rest)
    as [rest E].
  { unfold mirror_response.
    destruct (decide (default ∅ (mirror_hierarchy !! subject) = ∅)).
    - change (lit "거울상: (주제 '") with (lit "거울상" ++ lit ": (주제 '").
      rewrite <- app_assoc. eauto.
    - change (lit "거울상 (") with (lit "거울상" ++ lit " (").
      rewrite <- app_assoc. eauto. }
  split; [eauto|]. rewrite E.
  change (lit "거울상") with (44144 :: lit "울상"). cbn [app].
  by destruct (strip_starts_nonspace 44144 (lit "울상" ++ rest) eq_refl)
    as [r ->].
Qed.

(** ** What a pass keeps *)

Lemma grows_refl (w : world) : grows w w.
Proof. by repeat split. Qed.

Lemma grows_trans (w1 w2 w3 : world) :
  grows w1 w2 -> grows w2 w3 -> grows w1 w3.
Proof.
  intros (?&?&?&?) (?&?&?&?). repeat split; by etrans.
Qed.

Lemma grows_add_sent (r : request) (w : world) : grows w (add_sent r w).
Proof. repeat split; try done. by apply prefix_app_r. Qed.

Lemma grows_add_message (m : str * str) (w : world) :
  grows w (add_message m w).
Proof. repeat split; try done. by apply prefix_app_r. Qed.

Lemma grows_after_log (o : io_outcome) (block : str) (w : world) :
  grows w (after_log o block w).
Proof.
  repeat split; try done. cbn. destruct o; cbn; try done.
  by apply prefix_app_r.
Qed.

Lemma grows_after_speech (tts : bool) (speaker : Speaker) (answer : str)
    (w : world) :
  grows w (after_speech tts speaker answer w).
Proof.
  unfold after_speech. destruct (_ && _); [|apply grows_refl].
  repeat split; try done. by apply prefix_app_r.
Qed.

Lemma grows_after_buttons (u : ui) (w : world) : grows w (after_buttons u w).
Proof.
  unfold after_buttons. by destruct (start_clicked u), (stop_clicked u).
Qed.

Lemma grows_user_input_section (speaker : Speaker) (env : environment)
    (w : world) :
  grows w (user_input_section speaker env w).2.
Proof.
  rewrite user_input_section_run. cbv zeta.
  destruct (truthy _); [|apply grows_refl].
  destruct (reply_to env w _) as [t|]; [|apply grows_add_sent].
  destruct (user_answer _ t); [|apply grows_add_sent].
  cbn [snd].
  eapply grows_trans; [|apply grows_after_speech].
  eapply grows_trans; [|apply grows_after_log].
  eapply grows_trans; [|apply grows_add_message].
  eapply grows_trans; [|apply grows_add_message].
  apply grows_add_sent.
Qed.

Lemma grows_monologue_section (speaker : Speaker) (env : environment)
    (w : world) :
  grows w (monologue_section speaker env w).2.
Proof.
  rewrite monologue_section_run. cbv zeta.
  destruct (monologue_running _); [|apply grows_refl].
  destruct (reply_to env w _) as [t|]; [|apply grows_add_sent].
  cbn [snd].
  eapply grows_trans; [|apply grows_after_speech].
  eapply grows_trans; [|apply grows_after_log].
  eapply grows_trans; [|apply grows_add_message].
  apply grows_add_sent.
Qed.

Lemma grows_script (env : environment) (w : world) :
  grows w (script env w).2.
Proof.
  rewrite script_run. cbv zeta.
  pose proof (grows_user_input_section (Speaker_init (tts_engine env)) env
                (after_buttons (widgets env) w)) as Hu.
  destruct (user_input_section _ env _) as [[[]|e] w1]; cbn [snd] in *.
  - eapply grows_trans; [apply grows_after_buttons|].
    eapply grows_trans; [exact Hu|]. apply grows_monologue_section.
  - eapply grows_trans; [apply grows_after_buttons | exact Hu].
Qed.

(** X5: over any run of passes, whatever the provider, the disk and the
    widgets do and however the passes end, the history, the log on disk,
    the requests sent and the playbacks scheduled are only ever extended:
    what was there stays, unchanged and in place. *)
Theorem passes_grow (envs : list environment) (w : world) :
  grows w (passes envs w).
Proof.
  revert w. induction envs as [|env envs IH]; intros w; [apply grows_refl|].
  cbn [passes]. eapply grows_trans; [apply grows_script | apply IH].
Qed.

(** ** History and log in step *)

Lemma in_step_session (w w' : world) :
  session w' = session w -> in_step w -> in_step w'.
Proof. unfold in_step. by intros ->. Qed.

Lemma session_after_buttons_in_step (u : ui) (w : world) :
  in_step w -> in_step (after_buttons u w).
Proof.
  unfold after_buttons. by destruct (start_clicked u), (stop_clicked u).
Qed.

Lemma in_step_user_input_section (speaker : Speaker) (env : environment)
    (w : world) :
  reliable_disk env -> in_step w ->
  in_step (user_input_section speaker env w).2.
Proof.
  intros Hdisk [Hc Hp]. rewrite user_input_section_run. cbv zeta.
  destruct (truthy _); [|done].
  destruct (reply_to env w _) as [t|]; [|done].
  destruct (user_answer _ t) as [answer|]; [|done].
  cbn [snd]. eapply in_step_session; [apply session_after_speech|].
  rewrite Hdisk. unfold in_step. cbn. rewrite Hp, <- app_assoc. cbn [app].
  split; [|done]. by apply consistent_turn.
Qed.

Lemma in_step_monologue_section (speaker : Speaker) (env : environment)
    (w : world) :
  reliable_disk env -> in_step w ->
  in_step (monologue_section speaker env w).2.
Proof.
  intros Hdisk [Hc Hp]. rewrite monologue_section_run. cbv zeta.
  destruct (monologue_running _); [|done].
  destruct (reply_to env w _) as [t|]; [|done].
  cbn [snd]. eapply in_step_session; [apply session_after_speech|].
  rewrite Hdisk. unfold in_step. cbn. rewrite Hp. cbn [app].
  split; [|done]. by apply consistent_mono.
Qed.

Lemma in_step_script (env : environment) (w : world) :
  reliable_disk env -> in_step w -> in_step (script env w).2.
Proof.
  intros Hdisk Hw. rewrite script_run. cbv zeta.
  pose proof (in_step_user_input_section (Speaker_init (tts_engine env)) env
                (after_buttons (widgets env) w) Hdisk
                (session_after_buttons_in_step _ _ Hw)) as Hu.
  destruct (user_input_section _ env _) as [[[]|e] w1]; cbn [snd] in *.
  - by apply in_step_monologue_section.
  - done.
Qed.

(** X6: while the disk takes every write, history and log never diverge:
    over any run of passes, aborted ones included, the log on disk is
    made of one [USER:/ASSISTANT:] block for each user turn of the history
    and one [ASSISTANT(MONO):] record for each monologue turn, in the
    order of the history, and nothing is left in the buffer. *)
Theorem passes_in_step (envs : list environment) (w : world) :
  Forall reliable_disk envs -> in_step w -> in_step (passes envs w).
Proof.
  intros Hdisk. revert w.
  induction Hdisk as [|env envs Henv _ IH]; intros w Hw; [done|].
  cbn [passes]. by apply IH, in_step_script.
Qed.

Lemma passes_in_step_witness :
  in_step
    (passes
       [ example_env (lit "물 이야기해줘") true true (Text (lit "고요함")) IoOk;
         example_env (lit " ") true false (Text (lit "고요함")) IoOk;
         click Start (example_env [] false false (Text (lit "평화")) IoOk);
         example_env (lit "불") false false Failure IoOk ]
       (first_world {| on_disk := []; pending := [] |})).
Proof.
  apply passes_in_step.
  - repeat constructor.
  - split; [apply consistent_nil | reflexivity].
Defined.

(** ** Buttons and the monologue cycle in one pass *)

Lemma after_buttons_rest (u : ui) (w : world) :
  messages (session (after_buttons u w)) = messages (session w) /\
  logger (session (after_buttons u w)) = logger (session w) /\
  sent (after_buttons u w) = sent w /\
  log_calls (after_buttons u w) = log_calls w /\
  spoken (after_buttons u w) = spoken w.
Proof.
  unfold after_buttons. by destruct (start_clicked u), (stop_clicked u).
Qed.

Lemma after_buttons_flag (u : ui) (w : world) :
  monologue_running (session (after_buttons u w))
  = if stop_clicked u then false
    else if start_clicked u then true
    else monologue_running (session w).
Proof.
  unfold after_buttons. by destruct (start_clicked u), (stop_clicked u).
Qed.

(** X7: a pass with no text in the input, at the end of whose buttons the
    monologue is not running, ends normally without a request, a log
    write, a playback or a new message. *)
Theorem idle_pass (env : environment) (w : world) :
  user_input (widgets env) = [] ->
  monologue_running (session (after_buttons (widgets env) w)) = false ->
  exists w',
    script env w = (Returns tt, w') /\
    sent w' = sent w /\ log_calls w' = log_calls w /\
    spoken w' = spoken w /\
    messages (session w') = messages (session w) /\
    logger (session w') = logger (session w).
Proof.
  intros Htext Hrun. rewrite script_run. cbv zeta.
  rewrite user_input_section_run. cbv zeta. rewrite Htext. cbn [truthy].
  rewrite monologue_section_run. cbv zeta. rewrite Hrun.
  eexists. split; [reflexivity|].
  destruct (after_buttons_rest (widgets env) w) as (?&?&?&?&?). done.
Qed.

Lemma idle_pass_witness :
  exists w',
    script (click Stop (example_env [] true true (Text (lit "평화")) IoOk))
      (set_session
         (set_monologue_running true
            (session (first_world {| on_disk := []; pending := [] |})))
         (first_world {| on_disk := []; pending := [] |}))
    = (Returns tt, w') /\
    sent w' = [] /\ log_calls w' = 0%nat /\ spoken w' = [] /\
    messages (session w') = [] /\
    logger (session w') = {| on_disk := []; pending := [] |}.
Proof.
  apply (idle_pass
           (click Stop (example_env [] true true (Text (lit "평화")) IoOk))
           (set_session
              (set_monologue_running true
                 (session (first_world {| on_disk := []; pending := [] |})))
              (first_world {| on_disk := []; pending := [] |})));
    reflexivity.
Defined.

(** X8: the pass the start button triggers already runs a monologue cycle:
    with no text in the input and a provider that answers, it ends
    normally in [SoliloquyActive] with one request sent and the
    assistant's message added to the history. *)
Theorem start_runs_cycle (env : environment) (w : world) (raw : str) :
  user_input (widgets env) = [] ->
  reply_to env w monologue_prompt = Text raw ->
  exists w',
    script (click Start env) w = (Returns tt, w') /\
    soliloquy_state (session w') = SoliloquyActive /\
    sent w' = sent w ++ [request_of (widgets env) monologue_prompt] /\
    messages (session w')
    = messages (session w)
      ++ [(lit "assistant", monologue_answer (widgets env) raw)].
Proof.
  intros Htext Hreply. rewrite script_run. cbv zeta.
  rewrite user_input_section_run. cbv zeta.
  change (user_input (widgets (click Start env)))
    with (user_input (widgets env)).
  rewrite Htext. cbn [truthy].
  set (w0 := after_buttons (widgets (click Start env)) w).
  assert (monologue_running (session w0) = true) as Hrun
      by (unfold w0; by rewrite after_buttons_flag).
  destruct (after_buttons_rest (widgets (click Start env)) w)
    as (Hm & _ & Hs & _). fold w0 in Hm, Hs. clearbody w0.
  rewrite monologue_section_run. cbv zeta. rewrite Hrun.
  assert (reply_to (click Start env) w0 monologue_prompt = Text raw) as ->.
  { unfold reply_to. rewrite Hs. exact Hreply. }
  eexists. split; [reflexivity|]. 
  unfold soliloquy_state. rewrite session_after_speech, sent_after_speech.
  cbn. rewrite Hrun, Hs, Hm. done.
Qed.

Lemma start_runs_cycle_witness :
  exists w',
    script (click Start (example_env [] false false (Text (lit " 평화 ")) IoOk))
      (first_world {| on_disk := []; pending := [] |})
    = (Returns tt, w') /\
    soliloquy_state (session w') = SoliloquyActive /\
    sent w'
    = [] ++ [request_of (example_ui [] false false) monologue_prompt] /\
    messages (session w')
    = [] ++ [(lit "assistant",
              monologue_answer (example_ui [] false false) (lit " 평화 "))].
Proof.
  apply (start_runs_cycle
           (example_env [] false false (Text (lit " 평화 ")) IoOk)
           (first_world {| on_disk := []; pending := [] |}) (lit " 평화 "));
    reflexivity.
Defined.

(** X9: when both buttons read [True] in one pass the stop button wins:
    the pass ends in [Idle], and with no text in the input it sends no
    request. *)
Theorem stop_wins (env : environment) (w : world) :
  stop_clicked (widgets env) = true ->
  soliloquy_state (session (script env w).2) = Idle /\
  (user_input (widgets env) = [] -> sent (script env w).2 = sent w).
Proof.
  intros Hstop. split.
  - unfold soliloquy_state. by rewrite script_running, after_buttons_flag, Hstop.
  - intros Htext. rewrite script_run. cbv zeta.
    rewrite user_input_section_run. cbv zeta. rewrite Htext. cbn [truthy].
    rewrite monologue_section_run. cbv zeta.
    rewrite after_buttons_flag, Hstop. cbn [snd].
    apply after_buttons_rest.
Qed.

Lemma stop_wins_witness :
  soliloquy_state
    (session
       (script
          {| widgets := set_clicks true true (example_ui [] false false);
             provider := fun _ _ => Text (lit "평화"); disk := fun _ => IoOk;
             tts_engine := None |}
          (first_world {| on_disk := []; pending := [] |})).2) = Idle /\
  (user_input (set_clicks true true (example_ui [] false false)) = [] ->
   sent
     (script
        {| widgets := set_clicks true true (example_ui [] false false);
           provider := fun _ _ => Text (lit "평화"); disk := fun _ => IoOk;
           tts_engine := None |}
        (first_world {| on_disk := []; pending := [] |})).2 = []).
Proof.
  apply (stop_wins
           {| widgets := set_clicks true true (example_ui [] false false);
              provider := fun _ _ => Text (lit "평화"); disk := fun _ => IoOk;
              tts_engine := None |}
           (first_world {| on_disk := []; pending := [] |})).
  reflexivity.
Defined.

(** ** The requests of a run *)

Lemma well_shaped_request_of (u : ui) (text : str) :
  well_shaped (request_of u text).
Proof.
  split; [done|]. unfold request_of, GenerationConfig.
  cbn [generation_config]. rewrite !dom_insert_L, dom_empty_L. set_solver.
Qed.

Lemma sent_user_input_section (speaker : Speaker) (env : environment)
    (w : world) :
  sent (user_input_section speaker env w).2
  = sent w ++ (if truthy (user_input (widgets env))
               then [request_of (widgets env) (user_input (widgets env))]
               else []).
Proof.
  rewrite user_input_section_run. cbv zeta.
  destruct (truthy _); [|by rewrite app_nil_r].
  destruct (reply_to env w _) as [t|]; [|done].
  destruct (user_answer _ t); [|done].
  cbn [snd]. by rewrite sent_after_speech.
Qed.

Lemma sent_monologue_section (speaker : Speaker) (env : environment)
    (w : world) :
  sent (monologue_section speaker env w).2
  = sent w ++ (if monologue_running (session w)
               then [request_of (widgets env) monologue_prompt]
               else []).
Proof.
  rewrite monologue_section_run. cbv zeta.
  destruct (monologue_running _); [|by rewrite app_nil_r].
  destruct (reply_to env w _) as [t|]; [|done].
  cbn [snd]. by rewrite sent_after_speech.
Qed.

(** What one pass sends: nothing, the user's text as typed, the monologue
    prompt, or the first and then the second. *)
Lemma sent_script (env : environment) (w : world) :
  exists l,
    sent (script env w).2 = sent w ++ l /\
    (length l <= 2)%nat /\
    Forall well_shaped l /\
    Forall (fun r => prompt r = user_input (widgets env)
                     \/ prompt r = monologue_prompt) l.
Proof.
  rewrite script_run. cbv zeta.
  pose proof (sent_user_input_section (Speaker_init (tts_engine env)) env
                (after_buttons (widgets env) w)) as Hu.
  rewrite (proj1 (proj2 (proj2 (after_buttons_rest _ w)))) in Hu.
  destruct (user_input_section _ env _) as [[[]|e] w1]; cbn [snd] in *.
  - rewrite sent_monologue_section, Hu, <- app_assoc. eexists.
    split; [reflexivity|].
    destruct (truthy _), (monologue_running _); cbn [app length];
      (split; [lia|]); split;
      repeat match goal with |- Forall _ _ => constructor end;
      try apply well_shaped_request_of; try (by left); by right.
  - rewrite Hu. eexists. split; [reflexivity|].
    destruct (truthy _); cbn [app length];
      (split; [lia|]); split;
      repeat match goal with |- Forall _ _ => constructor end;
      try apply well_shaped_request_of; by left.
Qed.

(** X10: over any run of passes every request sent names the one model and
    configures exactly [max_output_tokens], [temperature] and [top_p], and
    a pass sends at most two requests. *)
Theorem passes_requests (envs : list environment) (w : world) :
  Forall well_shaped (sent w) ->
  Forall well_shaped (sent (passes envs w)) /\
  (length (sent (passes envs w)) <= length (sent w) + 2 * length envs)%nat.
Proof.
  revert w. induction envs as [|env envs IH]; intros w Hw.
  - cbn. split; [done | lia].
  - cbn [passes]. destruct (sent_script env w) as (l & Hl & Hlen & Hshape & _).
    destruct (IH (script env w).2) as [IH1 IH2].
    { rewrite Hl. by apply Forall_app. }
    split; [done|]. rewrite Hl, length_app in IH2. cbn [length]. lia.
Qed.

Lemma passes_requests_witness :
  Forall well_shaped
    (sent (passes
             [ example_env (lit "물 이야기해줘") true true (Text (lit "고요함")) IoOk;
               click Start (example_env (lit "불") false false Failure IoOk) ]
             (first_world {| on_disk := []; pending := [] |}))) /\
  (length
     (sent (passes
              [ example_env (lit "물 이야기해줘") true true (Text (lit "고요함")) IoOk;
                click Start (example_env (lit "불") false false Failure IoOk) ]
              (first_world {| on_disk := []; pending := [] |})))
   <= 0 + 2 * 2)%nat.
Proof.
  apply (passes_requests
           [ example_env (lit "물 이야기해줘") true true (Text (lit "고요함")) IoOk;
             click Start (example_env (lit "불") false false Failure IoOk) ]
           (first_world {| on_disk := []; pending := [] |})).
  constructor.
Defined.

(** ** What is spoken *)

Lemma spoken_after_speech (tts : bool) (speaker : Speaker) (answer : str)
    (w : world) :
  spoken (after_speech tts speaker answer w)
  = spoken w ++ (if tts && ok speaker && truthy (strip answer)
                 then [answer] else []).
Proof.
  unfold after_speech. destruct (_ && _); [done | by rewrite app_nil_r].
Qed.

Lemma mirror_response_not_blank (subject original : str) :
  truthy (strip (mirror_response subject original)) = true.
Proof.
  assert (exists rest, mirror_response subject original = 44144 :: rest)
    as [rest ->].
  { unfold mirror_response.
    destruct (decide (default ∅ (mirror_hierarchy !! subject) = ∅)).
    - change (lit "거울상: (주제 '") with (44144 :: lit "울상: (주제 '"). eauto.
    - change (lit "거울상 (") with (44144 :: lit "울상 ("). eauto. }
  by destruct (strip_starts_nonspace 44144 rest eq_refl) as [r ->].
Qed.

(** X11: what a section hands to the speaker is the text of the assistant
    message it has just added to the history, once, and only when speech
    is enabled, the engine is up and the text does not strip to nothing
    (in mirror mode it never does); a section that ends in an exception
    hands over nothing. *)
Theorem assistant_spoken (speaker : Speaker) (env : environment) (w : world) :
  (forall w',
      user_input_section speaker env w = (Returns tt, w') ->
      user_input (widgets env) <> [] ->
      exists ans,
        messages (session w')
        = messages (session w)
          ++ [(lit "user", user_input (widgets env)); (lit "assistant", ans)] /\
        spoken w'
        = spoken w ++ (if tts_enabled (widgets env) && ok speaker
                          && truthy (strip ans)
                       then [ans] else []) /\
        (mirror_mode (widgets env) = true -> truthy (strip ans) = true)) /\
  (forall e w',
      user_input_section speaker env w = (Raises e, w') ->
      spoken w' = spoken w) /\
  (forall w',
      monologue_section speaker env w = (Returns tt, w') ->
      monologue_running (session w) = true ->
      exists ans,
        messages (session w')
        = messages (session w) ++ [(lit "assistant", ans)] /\
        spoken w'
        = spoken w ++ (if tts_enabled (widgets env) && ok speaker
                          && truthy (strip ans)
                       then [ans] else []) /\
        (mirror_mode (widgets env) = true -> truthy (strip ans) = true)) /\
  (forall e w',
      monologue_section speaker env w = (Raises e, w') ->
      spoken w' = spoken w).
Proof.
  repeat split.
  - intros w'. rewrite user_input_section_run. cbv zeta.
    destruct (user_input (widgets env)) as [|c s] eqn:Htext; [done|].
    cbn [truthy]. destruct (reply_to env w _) as [t|]; [|done].
    destruct (user_answer _ t) as [ans|] eqn:Hans; [|done].
    intros [= <-] _. exists ans.
    rewrite session_after_speech, spoken_after_speech. cbn.
    rewrite <- app_assoc. repeat split. intros Hmirror.
    unfold user_answer in Hans. rewrite Hmirror in Hans.
    destruct (split _); [done|]. injection Hans as <-.
    apply mirror_response_not_blank.
  - intros e w'. rewrite user_input_section_run. cbv zeta.
    destruct (truthy _); [|done].
    destruct (reply_to env w _) as [t|]; [|by intros [= _ <-]].
    destruct (user_answer _ t); [done | by intros [= _ <-]].
  - intros w'. rewrite monologue_section_run. cbv zeta.
    intros H Hrun. rewrite Hrun in H.
    destruct (reply_to env w _) as [t|]; [|done].
    injection H as <-. exists (monologue_answer (widgets env) t).
    rewrite session_after_speech, spoken_after_speech. cbn.
    repeat split. intros Hmirror. unfold monologue_answer.
    rewrite Hmirror. apply mirror_response_not_blank.
  - intros e w'. rewrite monologue_section_run. cbv zeta.
    destruct (monologue_running _); [|done].
    destruct (reply_to env w _) as [t|]; [done | by intros [= _ <-]].
Qed.

(** X12: in mirror mode, a text whose first token is not a key of the
    table gets the model's answer back whole, under a line that says the
    subject has no definition. *)
Theorem user_submission_unknown_subject (speaker : Speaker)
    (env : environment) (w : world) (t subject : str) (rest : list str) :
  mirror_mode (widgets env) = true ->
  split (strip (user_input (widgets env))) = subject :: rest ->
  mirror_hierarchy !! subject = None ->
  (ask_gemini (user_input (widgets env)) env w).1 = Returns t ->
  exists w',
    user_input_section speaker env w = (Returns tt, w') /\
    messages (session w')
    = messages (session w)
      ++ [ (lit "user", user_input (widgets env));
           (lit "assistant",
            lit "거울상: (주제 '" ++ subject ++ lit "' 정의 없음)" ++ LF ++ LF ++ t) ].
Proof.
  intros Hmirror Hsplit Hkey Hask.
  apply ask_gemini_returns in Hask as [raw [Hreply ->]].
  rewrite user_input_section_run. cbv zeta.
  assert (truthy (user_input (widgets env)) = true) as ->.
  { destruct (user_input (widgets env)); [discriminate Hsplit | done]. }
  rewrite Hreply. unfold user_answer. rewrite Hmirror, Hsplit.
  rewrite (mirror_response_fallback _ _ Hkey). unfold fallback_form.
  eexists. split; [reflexivity|]. rewrite session_after_speech. cbn.
  by rewrite <- app_assoc.
Qed.

Lemma user_submission_unknown_subject_witness :
  exists w',
    user_input_section (Speaker_init None)
      (example_env (lit "안녕 물") true false (Text (lit "고요함")) IoOk)
      (first_world {| on_disk := []; pending := [] |})
    = (Returns tt, w') /\
    messages (session w')
    = [] ++ [ (lit "user", lit "안녕 물");
              (lit "assistant",
               lit "거울상: (주제 '" ++ lit "안녕" ++ lit "' 정의 없음)"
               ++ LF ++ LF ++ lit "고요함") ].
Proof.
  apply (user_submission_unknown_subject (Speaker_init None)
           (example_env (lit "안녕 물") true false (Text (lit "고요함")) IoOk)
           (first_world {| on_disk := []; pending := [] |})
           (lit "고요함") (lit "안녕") [lit "물"]);
    vm_compute; reflexivity.
Defined.

(** ** The conversation display *)

Lemma known_roles_user_input_section (speaker : Speaker) (env : environment)
    (w : world) :
  Forall known_role (messages (session w)) ->
  Forall known_role (messages (session (user_input_section speaker env w).2)).
Proof.
  intros H. rewrite user_input_section_run. cbv zeta.
  destruct (truthy _); [|done].
  destruct (reply_to env w _) as [t|]; [|done].
  destruct (user_answer _ t); [|done].
  cbn [snd]. rewrite session_after_speech. cbn.
  rewrite <- app_assoc. apply Forall_app. split; [done|].
  constructor; [by left|]. constructor; [by right|]. constructor.
Qed.

Lemma known_roles_monologue_section (speaker : Speaker) (env : environment)
    (w : world) :
  Forall known_role (messages (session w)) ->
  Forall known_role (messages (session (monologue_section speaker env w).2)).
Proof.
  intros H. rewrite monologue_section_run. cbv zeta.
  destruct (monologue_running _); [|done].
  destruct (reply_to env w _) as [t|]; [|done].
  cbn [snd]. rewrite session_after_speech. cbn.
  apply Forall_app. split; [done|]. constructor; [by right|]. constructor.
Qed.

Lemma known_roles_script (env : environment) (w : world) :
  Forall known_role (messages (session w)) ->
  Forall known_role (messages (session (script env w).2)).
Proof.
  intros H. rewrite script_run. cbv zeta.
  rewrite <- (proj1 (after_buttons_rest (widgets env) w)) in H.
  pose proof (known_roles_user_input_section
                (Speaker_init (tts_engine env)) env _ H) as Hu.
  destruct (user_input_section _ env _) as [[[]|e] w1]; cbn [snd] in *.
  - by apply known_roles_monologue_section.
  - done.
Qed.

(** X13: the script writes no role but "user" and "assistant": a history
    that holds only these two keeps holding only these two over any run of
    passes. *)
Theorem passes_known_roles (envs : list environment) (w : world) :
  Forall known_role (messages (session w)) ->
  Forall known_role (messages (session (passes envs w))).
Proof.
  revert w. induction envs as [|env envs IH]; intros w H; [done|].
  cbn [passes]. by apply IH, known_roles_script.
Qed.

Lemma passes_known_roles_witness :
  Forall known_role
    (messages
       (session
          (passes
             [ example_env (lit "물 이야기해줘") true true (Text (lit "고요함"))
                 WriteRaises;
               click Start (example_env [] false false (Text (lit "평화")) IoOk) ]
             (first_world {| on_disk := []; pending := [] |})))).
Proof.
  apply passes_known_roles. constructor.
Defined.




(** ** The log file's name *)

Lemma two_digits_inj (a b : N) :
  a < 100 -> b < 100 -> two_digits a = two_digits b -> a = b.
Proof.
  unfold two_digits, digit. intros Ha Hb [= H1 H2].
  pose proof (N.div_mod a 10). pose proof (N.div_mod b 10).
  pose proof (N.mod_lt a 10). pose proof (N.mod_lt b 10).
  assert (a / 10 < 10) by (apply N.Div0.div_lt_upper_bound; lia).
  assert (b / 10 < 10) by (apply N.Div0.div_lt_upper_bound; lia).
  rewrite (N.mod_small (a / 10)), (N.mod_small (b / 10)) in H1 by done.
  lia.
Qed.

Lemma four_digits_inj (a b : N) :
  a < 10000 -> b < 10000 -> four_digits a = four_digits b -> a = b.
Proof.
  unfold four_digits, digit. intros Ha Hb [= H1 H2 H3 H4].
  assert (forall n, n < 10000 ->
            n = 1000 * ((n / 1000) mod 10) + 100 * ((n / 100) mod 10)
                + 10 * ((n / 10) mod 10) + n mod 10) as Hdec.
  { intros n Hn.
    pose proof (N.div_mod n 10). pose proof (N.mod_lt n 10).
    pose proof (N.div_mod (n / 10) 10). pose proof (N.mod_lt (n / 10) 10).
    pose proof (N.div_mod (n / 10 / 10) 10).
    pose proof (N.mod_lt (n / 10 / 10) 10).
    assert (n / 10 / 10 / 10 < 10).
    { rewrite !N.Div0.div_div. apply N.Div0.div_lt_upper_bound. lia. }
    replace (n / 100) with (n / 10 / 10) by (by rewrite N.Div0.div_div).
    replace (n / 1000) with (n / 10 / 10 / 10)
      by (by rewrite !N.Div0.div_div).
    rewrite (N.mod_small (n / 10 / 10 / 10)) by done.
    pose proof (N.div_mod (n / 10 / 10) 10). lia. }
  rewrite (Hdec a Ha), (Hdec b Hb). lia.
Qed.

Example log_path_example :
  log_path (lit "/")
    {| year := 2026; month := 11; day := 3;
       hour := 21; minute := 7; second := 5 |}
  = lit "logs/session_20261103_210705.txt".
Proof. vm_compute. reflexivity. Qed.

(** X15: the name of the log file tells the second the session started:
    two valid start times with the same [log_path] are the same time, so
    sessions started in different seconds never share a log file. *)
Theorem log_path_injective (sep : str) (t1 t2 : datetime) :
  valid_datetime t1 -> valid_datetime t2 ->
  log_path sep t1 = log_path sep t2 -> t1 = t2.
Proof.
  destruct t1 as [y1 mo1 d1 h1 mi1 s1], t2 as [y2 mo2 d2 h2 mi2 s2].
  unfold valid_datetime, log_path, path_join, strftime.
  cbn [year month day hour minute second].
  intros (Hy1 & Hmo1 & Hd1 & Hh1 & Hmi1 & Hs1)
         (Hy2 & Hmo2 & Hd2 & Hh2 & Hmi2 & Hs2) H.
  do 3 apply app_inv_head in H. apply app_inv_tail in H.
  apply app_inj_1 in H as [Ey H]; [|done].
  apply app_inj_1 in H as [Emo H]; [|done].
  apply app_inj_1 in H as [Ed H]; [|done].
  apply app_inv_head in H.
  apply app_inj_1 in H as [Eh H]; [|done].
  apply app_inj_1 in H as [Emi Es]; [|done].
  apply four_digits_inj in Ey; [|lia..].
  apply two_digits_inj in Emo; [|lia..].
  apply two_digits_inj in Ed; [|lia..].
  apply two_digits_inj in Eh; [|lia..].
  apply two_digits_inj in Emi; [|lia..].
  apply two_digits_inj in Es; [|lia..].
  by subst.
Qed.

Lemma log_path_injective_witness :
  {| year := 2026; month := 11; day := 3;
     hour := 21; minute := 7; second := 5 |}
  = {| year := 2026; month := 11; day := 3;
       hour := 21; minute := 7; second := 5 |}.
Proof.
  apply (log_path_injective (lit "/")); [vm_compute; intuition discriminate..|].
  reflexivity.
Defined.

(** ** The user section, further *)

(** X16: with mirror mode off every text that is not empty gets through,
    white space alone included: when the model client returns [t] the
    section ends normally and the history gains the text as typed and
    then [t]. *)
Theorem user_submission_plain (speaker : Speaker) (env : environment)
    (w : world) (t : str) :
  mirror_mode (widgets env) = false ->
  user_input (widgets env) <> [] ->
  (ask_gemini (user_input (widgets env)) env w).1 = Returns t ->
  exists w',
    user_input_section speaker env w = (Returns tt, w') /\
    sent w' = sent w ++ [request_of (widgets env) (user_input (widgets env))] /\
    messages (session w')
    = messages (session w)
      ++ [(lit "user", user_input (widgets env)); (lit "assistant", t)].
Proof.
  intros Hmirror Htext Hask.
  apply ask_gemini_returns in Hask as [raw [Hreply ->]].
  rewrite user_input_section_run. cbv zeta.
  destruct (user_input (widgets env)) as [|c s] eqn:E; [done|].
  cbn [truthy]. rewrite Hreply. unfold user_answer. rewrite Hmirror.
  eexists. split; [reflexivity|].
  rewrite session_after_speech, sent_after_speech. cbn.
  by rewrite <- app_assoc.
Qed.

Lemma user_submission_plain_witness :
  exists w',
    user_input_section (Speaker_init None)
      (example_env (lit " ") false false (Text (lit " 고요함 ")) IoOk)
      (first_world {| on_disk := []; pending := [] |})
    = (Returns tt, w') /\
    sent w' = [] ++ [request_of (example_ui (lit " ") false false) (lit " ")] /\
    messages (session w')
    = [] ++ [(lit "user", lit " "); (lit "assistant", lit "고요함")].
Proof.
  apply (user_submission_plain (Speaker_init None)
           (example_env (lit " ") false false (Text (lit " 고요함 ")) IoOk)
           (first_world {| on_disk := []; pending := [] |}) (lit "고요함")).
  - reflexivity.
  - vm_compute. discriminate.
  - vm_compute. reflexivity.
Defined.

Lemma split_strip_nil (text : str) :
  split (strip text) = [] <-> strip text = [].
Proof.
  split.
  - intros H. destruct (strip text) as [|c s] eqn:E; [done|].
    destruct (split_strip_first text) as (tok & rest & Hs); [by rewrite E|].
    rewrite E in Hs. rewrite H in Hs. done.
  - by intros ->.
Qed.

Lemma user_answer_none (u : ui) (t : str) :
  user_answer u t = None <->
  mirror_mode u = true /\ strip (user_input u) = [].
Proof.
  unfold user_answer. rewrite <- split_strip_nil.
  destruct (mirror_mode u); [|split; [done | by intros [? _]]].
  destruct (split (strip (user_input u))); split; try done.
  by intros [_ ?].
Qed.

(** X17: the exceptions of a pass.  The user section raises exactly in two
    cases, both with a text that is not empty: the generation call fails
    ([ApiError]), or it succeeds in mirror mode on a text of white space
    alone ([IndexError]).  The monologue section raises exactly when it
    is running and the generation call fails ([ApiError]).  A failed log
    write never surfaces. *)
Theorem section_exceptions (speaker : Speaker) (env : environment)
    (w : world) (e : exn) :
  ((user_input_section speaker env w).1 = Raises e <->
   user_input (widgets env) <> [] /\
   ((reply_to env w (user_input (widgets env)) = Failure /\ e = ApiError) \/
    (exists raw,
        reply_to env w (user_input (widgets env)) = Text raw /\
        mirror_mode (widgets env) = true /\
        strip (user_input (widgets env)) = [] /\ e = IndexError))) /\
  ((monologue_section speaker env w).1 = Raises e <->
   monologue_running (session w) = true /\
   reply_to env w monologue_prompt = Failure /\ e = ApiError) /\
  ((script env w).1 = Raises e -> e = ApiError \/ e = IndexError).
Proof.
  assert (forall sp w0,
             (monologue_section sp env w0).1 = Raises e <->
             monologue_running (session w0) = true /\
             reply_to env w0 monologue_prompt = Failure /\ e = ApiError)
    as Hmono.
  { intros sp w0. rewrite monologue_section_run. cbv zeta.
    destruct (monologue_running _); [|split; [done | by intros [? _]]].
    destruct (reply_to env w0 _) as [t|]; cbn [fst].
    - split; [done | by intros (_ & ? & _)].
    - split; [by intros [= <-] | by intros (_ & _ & ->)]. }
  assert (forall sp w0,
             (user_input_section sp env w0).1 = Raises e ->
             e = ApiError \/ e = IndexError) as Huser.
  { intros sp w0. rewrite user_input_section_run. cbv zeta.
    destruct (truthy _); [|done].
    destruct (reply_to env w0 _) as [t|]; [|intros [= <-]; by left].
    destruct (user_answer _ t); [done | intros [= <-]; by right]. }
  split; [|split].
  - rewrite user_input_section_run. cbv zeta.
    destruct (user_input (widgets env)) as [|c s] eqn:Htext.
    { split; [done | by intros [? _]]. }
    cbn [truthy]. rewrite <- Htext.
    destruct (reply_to env w _) as [t|].
    + destruct (user_answer (widgets env) t) as [ans|] eqn:Hans; cbn [fst].
      * split; [done|]. intros [_ [[? _] | (raw & _ & Hm & Hs & _)]]; [done|].
        assert (user_answer (widgets env) t = None) as Hnone
            by (by apply user_answer_none).
        congruence.
      * apply user_answer_none in Hans as [Hm Hs]. split.
        -- intros [= <-]. split; [by rewrite Htext|]. right. eauto.
        -- by intros [_ [[? _] | (raw & _ & _ & _ & ->)]].
    + cbn [fst]. split.
      * intros [= <-]. split; [by rewrite Htext|]. by left.
      * by intros [_ [[_ ->] | (raw & ? & _)]].
  - apply Hmono.
  - rewrite script_run. cbv zeta.
    pose proof (Huser (Speaker_init (tts_engine env))
                  (after_buttons (widgets env) w)) as Hu.
    destruct (user_input_section _ env _) as [[[]|e'] w1]; cbn [fst] in *.
    + intros H. apply Hmono in H as (_ & _ & ->). by left.
    + intros [= ->]. by apply Hu.
Qed.

(** ** The page *)

(** X18: a pass that ends normally displays the history as the pass leaves
    it, one line for each message, and the lines of the history the pass
    started from come first, unchanged; a pass that an exception ends
    displays no conversation. *)
Theorem page_shows (env : environment) (w : world) :
  (forall lines w',
      page env w = (Returns lines, w') ->
      script env w = (Returns tt, w') /\
      lines = render (messages (session w')) /\
      render (messages (session w)) `prefix_of` lines) /\
  (forall e, (script env w).1 = Raises e -> (page env w).1 = Raises e).
Proof.
  unfold page, bind. pose proof (grows_script env w) as (Hm & _).
  destruct (script env w) as [[[]|e] w1]; cbn [fst snd] in *.
  - split; [|done]. intros lines w' [= <- <-]. repeat split.
    destruct Hm as [k ->]. unfold render. rewrite map_app.
    by apply prefix_app_r.
  - split; [done|]. by intros e' [= <-].
Qed.
